(** * SecureRes image converter: the resize / composite / encode pipeline

    A shallow embedding of [src/services/imageService.ts] (with the
    enumerations and the [RESOLUTIONS] table of [types.ts]) and of the
    validation guard of [src/App.tsx], followed by the properties of the
    specification that are settled against it.

    Modelling choices.
    - A JavaScript number is an IEEE double.  It is modelled by [JS.number]:
      an exact rational, or one of +Infinity, -Infinity, NaN.  Rounding and
      overflow of finite results are not modelled, and zero carries no sign
      (a zero divisor is taken as +0).  A property the specification states
      "within floating tolerance" is therefore proved as an exact equality of
      the unrounded values.
    - Integers are printed and read exactly, which is what the code does
      for the integers a double holds exactly, up to 2^53 in magnitude.
    - [(imageSource as any).width] is read through [any]: it is a
      [JS.value], either [undefined] or a number.
    - The canvas is a record holding its size as the element keeps it (an
      unsigned long), the 2D context's state and the list of drawing
      operations issued so far; the function threads it through a
      small state-and-exception monad.
    - The browser (context creation, encoder, object URLs, decoders) is a
      record of functions, [Browser]. *)

From Stdlib Require Import QArith Qminmax ZArith String Ascii List Bool Lia Lqa DecimalString.
From Stdlib Require Qcanon DecimalPos.
Import ListNotations.

Local Open Scope string_scope.

(** ** JavaScript numbers *)

Module JS.

Inductive number : Type :=
| Fin (q : Q)
| PosInf
| NegInf
| NaN.

(** What a property read through [any] evaluates to. *)
Inductive value : Type :=
| Undefined
| Num (n : number).

Definition Qlt_bool (a b : Q) : bool := negb (Qle_bool b a).

(** ToBoolean on a number: 0 and NaN are falsy. *)
Definition toBoolean (n : number) : bool :=
  match n with
  | Fin q => negb (Qeq_bool q 0)
  | PosInf | NegInf => true
  | NaN => false
  end.

Definition truthy (v : value) : bool :=
  match v with
  | Undefined => false
  | Num n => toBoolean n
  end.

(** ToNumber, applied to the operands of [/]. *)
Definition toNumber (v : value) : number :=
  match v with
  | Undefined => NaN
  | Num n => n
  end.

(** [v || d] with a numeric default [d]. *)
Definition or_else (v : value) (d : number) : number :=
  match v with
  | Num n => if toBoolean n then n else d
  | Undefined => d
  end.

(** [a > b] *)
Definition gt (a b : number) : bool :=
  match a, b with
  | NaN, _ | _, NaN => false
  | Fin x, Fin y => Qlt_bool y x
  | PosInf, PosInf => false
  | PosInf, _ => true
  | _, PosInf => false
  | NegInf, _ => false
  | Fin _, NegInf => true
  end.

(** [a <= b] *)
Definition le (a b : number) : bool :=
  match a, b with
  | NaN, _ | _, NaN => false
  | Fin x, Fin y => Qle_bool x y
  | NegInf, _ => true
  | _, PosInf => true
  | PosInf, _ => false
  | Fin _, NegInf => false
  end.

(** The sign-directed infinity produced by an overflowing product or quotient. *)
Definition signed_inf (positive : bool) : number :=
  if positive then PosInf else NegInf.

(** [a / b]; a finite quotient is the unrounded one. *)
Definition div (a b : number) : number :=
  match a, b with
  | NaN, _ | _, NaN => NaN
  | Fin x, Fin y =>
      if Qeq_bool y 0
      then (if Qeq_bool x 0 then NaN else signed_inf (Qlt_bool 0 x))
      else Fin (x / y)
  | Fin _, (PosInf | NegInf) => Fin 0
  | PosInf, Fin y => signed_inf (Qle_bool 0 y)
  | NegInf, Fin y => signed_inf (Qlt_bool y 0)
  | (PosInf | NegInf), (PosInf | NegInf) => NaN
  end.

(** [a * b]; a finite product is the unrounded one. *)
Definition mul (a b : number) : number :=
  match a, b with
  | NaN, _ | _, NaN => NaN
  | Fin x, Fin y => Fin (x * y)
  | Fin x, PosInf | PosInf, Fin x =>
      if Qeq_bool x 0 then NaN else signed_inf (Qlt_bool 0 x)
  | Fin x, NegInf | NegInf, Fin x =>
      if Qeq_bool x 0 then NaN else signed_inf (Qlt_bool x 0)
  | PosInf, PosInf | NegInf, NegInf => PosInf
  | PosInf, NegInf | NegInf, PosInf => NegInf
  end.

(** [a - b] *)
Definition sub (a b : number) : number :=
  match a, b with
  | NaN, _ | _, NaN => NaN
  | Fin x, Fin y => Fin (x - y)
  | Fin _, PosInf => NegInf
  | Fin _, NegInf => PosInf
  | PosInf, PosInf | NegInf, NegInf => NaN
  | PosInf, _ => PosInf
  | NegInf, _ => NegInf
  end.

(** Number::toString as a template literal applies it.  A finite integer
    below 10^21 in magnitude prints as its decimal digits, which are the
    digits the code prints for the integers a double holds exactly (those
    below 2^53 in magnitude); the remaining finite values (fractions,
    exponent notation) are left to [rest], the part of the ECMAScript
    algorithm that depends on the double's digits. *)
Definition toString (rest : Q -> string) (n : number) : string :=
  match n with
  | NaN => "NaN"
  | PosInf => "Infinity"
  | NegInf => "-Infinity"
  | Fin q =>
      let r := Qred q in
      if Pos.eqb (Qden r) 1 && Z.ltb (Z.abs (Qnum r)) (10 ^ 21)
      then NilZero.string_of_int (Z.to_int (Qnum r))
      else rest q
  end.

(** Equality of numbers up to the representation of the rational. *)
Definition eqv (a b : number) : Prop :=
  match a, b with
  | Fin x, Fin y => x == y
  | PosInf, PosInf | NegInf, NegInf | NaN, NaN => True
  | _, _ => False
  end.

End JS.

Coercion JS.Fin : Q >-> JS.number.

(** ** [types.ts] *)

Inductive ResolutionPreset : Type := UHD_4K | QHD_2K | FHD_1080 | HD_720 | CUSTOM.

(** The string value of each enumeration member. *)
Definition preset_label (p : ResolutionPreset) : string :=
  match p with
  | UHD_4K => "4K UHD"
  | QHD_2K => "2K QHD"
  | FHD_1080 => "1080p FHD"
  | HD_720 => "720p HD"
  | CUSTOM => "Custom"
  end.

Definition preset_eqb (p q : ResolutionPreset) : bool :=
  match p, q with
  | UHD_4K, UHD_4K | QHD_2K, QHD_2K | FHD_1080, FHD_1080
  | HD_720, HD_720 | CUSTOM, CUSTOM => true
  | _, _ => false
  end.

Inductive OutputFormat : Type := PNG | JPEG | WEBP.

Definition mime (f : OutputFormat) : string :=
  match f with
  | PNG => "image/png"
  | JPEG => "image/jpeg"
  | WEBP => "image/webp"
  end.

Inductive FitMode : Type := CONTAIN | COVER | STRETCH.

Module ProcessingSettings.
Record t : Type := mk {
  preset : ResolutionPreset;
  width : JS.number;
  height : JS.number;
  format : OutputFormat;
  quality : JS.number;
  fitMode : FitMode;
  keepAspectRatio : bool;
  backgroundColor : string
}.
End ProcessingSettings.

Module ResolutionDef.
Record t : Type := mk { width : JS.number; height : JS.number }.
End ResolutionDef.

Definition RESOLUTIONS (p : ResolutionPreset) : ResolutionDef.t :=
  match p with
  | UHD_4K => ResolutionDef.mk 3840 2160
  | QHD_2K => ResolutionDef.mk 2560 1440
  | FHD_1080 => ResolutionDef.mk 1920 1080
  | HD_720 => ResolutionDef.mk 1280 720
  | CUSTOM => ResolutionDef.mk 0 0
  end.

Definition format_eqb (f g : OutputFormat) : bool :=
  match f, g with
  | PNG, PNG | JPEG, JPEG | WEBP, WEBP => true
  | _, _ => false
  end.

Definition fitMode_eqb (f g : FitMode) : bool :=
  match f, g with
  | CONTAIN, CONTAIN | COVER, COVER | STRETCH, STRETCH => true
  | _, _ => false
  end.

(** ** The browser objects the service touches *)

Definition Blob : Type := list Byte.byte.

Module File.
Record t : Type := mk { name : string; blob : Blob }.
End File.

(** A [CanvasImageSource]; the service reads its [width] and [height]
    through [any]. *)
Module ImageSource.
Record t : Type := mk { width : JS.value; height : JS.value }.
End ImageSource.

Inductive DrawOp : Type :=
| FillRect (style : string) (x y w h : JS.number)
| ClearRect (x y w h : JS.number)
| DrawImage (image : ImageSource.t) (x y w h : JS.number).

(** A canvas element together with the state of its 2D context.  [width]
    and [height] hold what the element keeps of the numbers assigned, see
    [canvas_dimension]; [fillStyle] holds the string assigned.  [ops] is the sequence of drawing operations issued, oldest
    first; a [FillRect] records the fill style in force when it was issued. *)
Module Canvas.
Record t : Type := mk {
  width : JS.number;
  height : JS.number;
  fillStyle : string;
  imageSmoothingEnabled : bool;
  imageSmoothingQuality : string;
  ops : list DrawOp
}.

(** [document.createElement('canvas')] *)
Definition create : t := mk 300 150 "#000000" true "low" [].
End Canvas.

Module ProcessedImage.
Record t : Type := mk {
  blob : Blob;
  url : string;
  filename : string;
  width : JS.number;
  height : JS.number
}.
End ProcessedImage.

Inductive Error : Type :=
| CanvasContextError
| CanvasToBlobError
| ImageLoadError.

Definition error_message (e : Error) : string :=
  match e with
  | CanvasContextError => "Could not get canvas context"
  | CanvasToBlobError => "Canvas to Blob failed"
  | ImageLoadError => "error"
  end.

(** The settled state of a promise. *)
Inductive Promise (A : Type) : Type :=
| Resolved (a : A)
| Rejected (e : Error).
Arguments Resolved {A} a.
Arguments Rejected {A} e.

(** What the environment decides. *)
Record Browser : Type := {
  (** whether [canvas.getContext('2d')] returns a context *)
  getContext2d : bool;
  (** the blob [canvas.toBlob] hands to its callback, [None] for null *)
  toBlob : Canvas.t -> string -> option JS.number -> option Blob;
  createObjectURL : Blob -> string;
  (** [None] when the promise rejects *)
  createImageBitmap : File.t -> option ImageSource.t;
  (** an [Image] whose [src] is set to the URL: [None] when [onerror] fires *)
  loadImage : string -> option ImageSource.t;
  (** Number::toString outside the integer case, see [JS.toString] *)
  numberToString : Q -> string
}.

(** ** Canvas computations: state and exceptions *)

Definition M (A : Type) : Type := Canvas.t -> Promise (A * Canvas.t).

Definition ret {A} (a : A) : M A := fun c => Resolved (a, c).

Definition bind {A B} (m : M A) (k : A -> M B) : M B :=
  fun c => match m c with
           | Resolved (a, c') => k a c'
           | Rejected e => Rejected e
           end.

Definition throw {A} (e : Error) : M A := fun _ => Rejected e.

Definition run {A} (m : M A) (c : Canvas.t) : Promise A :=
  match m c with
  | Resolved (a, _) => Resolved a
  | Rejected e => Rejected e
  end.

Declare Scope canvas_scope.
Delimit Scope canvas_scope with canvas.
Notation "x <- m ;; k" := (bind m (fun x => k))
  (at level 100, m at next level, right associativity) : canvas_scope.
Notation "m ;; k" := (bind m (fun _ => k))
  (at level 100, right associativity) : canvas_scope.

Definition update (f : Canvas.t -> Canvas.t) : M unit :=
  fun c => Resolved (tt, f c).

Definition read : M Canvas.t := fun c => Resolved (c, c).

Definition issue (op : DrawOp) (c : Canvas.t) : Canvas.t :=
  Canvas.mk (Canvas.width c) (Canvas.height c) (Canvas.fillStyle c)
    (Canvas.imageSmoothingEnabled c) (Canvas.imageSmoothingQuality c)
    (Canvas.ops c ++ [op]).

(** The conversion of a number to an [unsigned long]: NaN and the
    infinities give 0, a finite number is truncated towards zero and taken
    modulo 2^32. *)
Definition ToUint32 (n : JS.number) : Z :=
  match n with
  | JS.Fin q => Z.modulo (Z.quot (Qnum q) (Z.pos (Qden q))) (2 ^ 32)
  | _ => 0%Z
  end.

(** What a canvas keeps of a number assigned to [width] or [height]: the
    [unsigned long] it converts to, or the attribute's default when that
    exceeds 2147483647. *)
Definition canvas_dimension (default : Z) (n : JS.number) : JS.number :=
  let v := ToUint32 n in
  JS.Fin (inject_Z (if (v <=? 2147483647)%Z then v else default)).

(** [canvas.width = w] *)
Definition set_width (w : JS.number) : M unit :=
  update (fun c => Canvas.mk (canvas_dimension 300 w) (Canvas.height c)
    (Canvas.fillStyle c)
    (Canvas.imageSmoothingEnabled c) (Canvas.imageSmoothingQuality c) (Canvas.ops c)).

(** [canvas.height = h] *)
Definition set_height (h : JS.number) : M unit :=
  update (fun c => Canvas.mk (Canvas.width c) (canvas_dimension 150 h)
    (Canvas.fillStyle c)
    (Canvas.imageSmoothingEnabled c) (Canvas.imageSmoothingQuality c) (Canvas.ops c)).

Definition set_fillStyle (s : string) : M unit :=
  update (fun c => Canvas.mk (Canvas.width c) (Canvas.height c) s
    (Canvas.imageSmoothingEnabled c) (Canvas.imageSmoothingQuality c) (Canvas.ops c)).

Definition set_imageSmoothingEnabled (b : bool) : M unit :=
  update (fun c => Canvas.mk (Canvas.width c) (Canvas.height c) (Canvas.fillStyle c)
    b (Canvas.imageSmoothingQuality c) (Canvas.ops c)).

Definition set_imageSmoothingQuality (q : string) : M unit :=
  update (fun c => Canvas.mk (Canvas.width c) (Canvas.height c) (Canvas.fillStyle c)
    (Canvas.imageSmoothingEnabled c) q (Canvas.ops c)).

Definition fillRect (x y w h : JS.number) : M unit :=
  update (fun c => issue (FillRect (Canvas.fillStyle c) x y w h) c).

Definition clearRect (x y w h : JS.number) : M unit :=
  update (issue (ClearRect x y w h)).

Definition drawImage (image : ImageSource.t) (x y w h : JS.number) : M unit :=
  update (issue (DrawImage image x y w h)).

(** ** [renderToCanvas], block by block *)

(** The test [!d || d <= 0] of the safety check. *)
Definition unusable (d : JS.number) : bool :=
  negb (JS.toBoolean d) || JS.le d 0.

(** 2. Determine target dimensions: the settings' own, or the preset's. *)
Definition requested_dimensions (settings : ProcessingSettings.t)
    : JS.number * JS.number :=
  let targetWidth := ProcessingSettings.width settings in
  let targetHeight := ProcessingSettings.height settings in
  if negb (preset_eqb (ProcessingSettings.preset settings) CUSTOM) then
    let presetDims := RESOLUTIONS (ProcessingSettings.preset settings) in
    (ResolutionDef.width presetDims, ResolutionDef.height presetDims)
  else (targetWidth, targetHeight).

(** Safety check. *)
Definition safety_check (imageSource : ImageSource.t)
    (targetWidth targetHeight : JS.number) : JS.number * JS.number :=
  let targetWidth :=
    if unusable targetWidth
    then JS.or_else (ImageSource.width imageSource) 1920
    else targetWidth in
  let targetHeight :=
    if unusable targetHeight
    then JS.or_else (ImageSource.height imageSource) 1080
    else targetHeight in
  (targetWidth, targetHeight).

Definition target_dimensions (imageSource : ImageSource.t)
    (settings : ProcessingSettings.t) : JS.number * JS.number :=
  let '(targetWidth, targetHeight) := requested_dimensions settings in
  safety_check imageSource targetWidth targetHeight.

(** 5. Draw background. *)
Definition draw_background (settings : ProcessingSettings.t)
    (targetWidth targetHeight : JS.number) : M unit :=
  ((if format_eqb (ProcessingSettings.format settings) JPEG
       && String.eqb (ProcessingSettings.backgroundColor settings) "transparent"
    then set_fillStyle "#000000"
    else set_fillStyle (ProcessingSettings.backgroundColor settings)) ;;
   (if negb (String.eqb (ProcessingSettings.backgroundColor settings) "transparent")
    then fillRect 0 0 targetWidth targetHeight
    else clearRect 0 0 targetWidth targetHeight))%canvas.

Module Rect.
Record t : Type := mk {
  drawX : JS.number;
  drawY : JS.number;
  drawW : JS.number;
  drawH : JS.number
}.
End Rect.

(** 6. Calculate draw position (fit mode). *)
Definition draw_position (imageSource : ImageSource.t) (fitMode : FitMode)
    (targetWidth targetHeight : JS.number) : Rect.t :=
  let drawX : JS.number := 0 in
  let drawY : JS.number := 0 in
  let drawW := targetWidth in
  let drawH := targetHeight in
  let srcW := ImageSource.width imageSource in
  let srcH := ImageSource.height imageSource in
  let srcRatio := JS.div (JS.toNumber srcW) (JS.toNumber srcH) in
  let dstRatio := JS.div targetWidth targetHeight in
  if fitMode_eqb fitMode CONTAIN then
    if JS.gt srcRatio dstRatio then
      let drawW := targetWidth in
      let drawH := JS.div targetWidth srcRatio in
      let drawY := JS.div (JS.sub targetHeight drawH) 2 in
      Rect.mk drawX drawY drawW drawH
    else
      let drawH := targetHeight in
      let drawW := JS.mul targetHeight srcRatio in
      let drawX := JS.div (JS.sub targetWidth drawW) 2 in
      Rect.mk drawX drawY drawW drawH
  else if fitMode_eqb fitMode COVER then
    if JS.gt srcRatio dstRatio then
      let drawH := targetHeight in
      let drawW := JS.mul targetHeight srcRatio in
      let drawX := JS.div (JS.sub targetWidth drawW) 2 in
      Rect.mk drawX drawY drawW drawH
    else
      let drawW := targetWidth in
      let drawH := JS.div targetWidth srcRatio in
      let drawY := JS.div (JS.sub targetHeight drawH) 2 in
      Rect.mk drawX drawY drawW drawH
  else Rect.mk drawX drawY drawW drawH.

(** [s.split('.')] *)
Fixpoint split_dot (s : string) : list string :=
  match s with
  | EmptyString => [EmptyString]
  | String c r =>
      if Ascii.eqb c "."
      then EmptyString :: split_dot r
      else match split_dot r with
           | h :: t => String c h :: t
           | [] => [String c EmptyString]
           end
  end.

(** [parts.join('.')] *)
Fixpoint join_dot (parts : list string) : string :=
  match parts with
  | [] => EmptyString
  | [p] => p
  | p :: rest => p ++ "." ++ join_dot rest
  end.

(** The ASCII members of the class [\s]; the class also holds code points
    beyond ASCII, none of which occurs in a preset label. *)
Definition is_space (c : ascii) : bool :=
  let n := nat_of_ascii c in
  ((9 <=? n)%nat && (n <=? 13)%nat) || (n =? 32)%nat.

(** [s.replace(/\s/g,'')] *)
Fixpoint remove_spaces (s : string) : string :=
  match s with
  | EmptyString => EmptyString
  | String c r => if is_space c then remove_spaces r else String c (remove_spaces r)
  end.

(** Generate filename: the name without its extension. *)
Definition baseName (originalFilename : string) : string :=
  let nameParts := split_dot originalFilename in
  let nameParts :=
    if (1 <? List.length nameParts)%nat then removelast nameParts else nameParts in
  join_dot nameParts.

(** Generate filename: the extension of the format. *)
Definition ext (format : OutputFormat) : string :=
  let ext := "jpg" in
  let ext := if format_eqb format PNG then "png" else ext in
  let ext := if format_eqb format WEBP then "webp" else ext in
  ext.

(** Generate filename: the template literal. *)
Definition generate_filename (B : Browser) (originalFilename : string)
    (settings : ProcessingSettings.t) (targetWidth targetHeight : JS.number) : string :=
  baseName originalFilename
    ++ "_" ++ JS.toString (numberToString B) targetWidth
    ++ "x" ++ JS.toString (numberToString B) targetHeight
    ++ "_" ++ remove_spaces (preset_label (ProcessingSettings.preset settings))
    ++ "." ++ ext (ProcessingSettings.format settings).

(** Steps 3 to 7 of [renderToCanvas]: the canvas, its context, the
    background and the image. *)
Definition composite (B : Browser) (imageSource : ImageSource.t)
    (settings : ProcessingSettings.t)
    (targetWidth targetHeight : JS.number) : M unit :=
  (set_width targetWidth ;;
   set_height targetHeight ;;
   (if getContext2d B then ret tt else throw CanvasContextError) ;;
   set_imageSmoothingEnabled true ;;
   set_imageSmoothingQuality "high" ;;
   draw_background settings targetWidth targetHeight ;;
   let r := draw_position imageSource (ProcessingSettings.fitMode settings)
              targetWidth targetHeight in
   drawImage imageSource (Rect.drawX r) (Rect.drawY r) (Rect.drawW r) (Rect.drawH r)
  )%canvas.

(** Step 8 of [renderToCanvas]: export through [canvas.toBlob]. *)
Definition export (B : Browser) (originalFilename : string)
    (settings : ProcessingSettings.t)
    (targetWidth targetHeight : JS.number) : M ProcessedImage.t :=
  (let quality :=
     if format_eqb (ProcessingSettings.format settings) PNG
     then None else Some (ProcessingSettings.quality settings) in
   canvas <- read ;;
   match toBlob B canvas (mime (ProcessingSettings.format settings)) quality with
   | None => throw CanvasToBlobError
   | Some blob =>
       let url := createObjectURL B blob in
       let filename :=
         generate_filename B originalFilename settings targetWidth targetHeight in
       ret (ProcessedImage.mk blob url filename targetWidth targetHeight)
   end)%canvas.

Definition renderToCanvas (B : Browser) (imageSource : ImageSource.t)
    (originalFilename : string) (settings : ProcessingSettings.t)
    : Promise ProcessedImage.t :=
  let '(targetWidth, targetHeight) := target_dimensions imageSource settings in
  run (composite B imageSource settings targetWidth targetHeight ;;
       export B originalFilename settings targetWidth targetHeight)%canvas
      Canvas.create.

(** The canvas as [toBlob] receives it: [renderToCanvas] stopped before its
    export step. *)
Definition composited (B : Browser) (imageSource : ImageSource.t)
    (settings : ProcessingSettings.t) : Promise Canvas.t :=
  let '(targetWidth, targetHeight) := target_dimensions imageSource settings in
  run (composite B imageSource settings targetWidth targetHeight ;; read)%canvas
      Canvas.create.

Definition processImage (B : Browser) (sourceFile : File.t)
    (settings : ProcessingSettings.t) : Promise ProcessedImage.t :=
  match createImageBitmap B sourceFile with
  | Some bitmap => renderToCanvas B bitmap (File.name sourceFile) settings
  | None =>
      match loadImage B (createObjectURL B (File.blob sourceFile)) with
      | Some img => renderToCanvas B img (File.name sourceFile) settings
      | None => Rejected ImageLoadError
      end
  end.

(** ** [App.tsx]: validation state and the process handler *)

Definition isCustom (settings : ProcessingSettings.t) : bool :=
  preset_eqb (ProcessingSettings.preset settings) CUSTOM.

Definition widthError (settings : ProcessingSettings.t) : option string :=
  if isCustom settings && JS.le (ProcessingSettings.width settings) 0
  then Some "Width must be positive" else None.

Definition heightError (settings : ProcessingSettings.t) : option string :=
  if isCustom settings && JS.le (ProcessingSettings.height settings) 0
  then Some "Height must be positive" else None.

Definition is_null {A} (o : option A) : bool :=
  match o with None => true | Some _ => false end.

Definition isValid (settings : ProcessingSettings.t) : bool :=
  is_null (widthError settings) && is_null (heightError settings).

(** [handleProcess]: [None] when the handler returns at its guard without
    calling [processImage], otherwise the settled promise. *)
Definition handleProcess (B : Browser) (file : option File.t)
    (settings : ProcessingSettings.t) : option (Promise ProcessedImage.t) :=
  match file with
  | None => None
  | Some f =>
      if negb (isValid settings) then None
      else Some (processImage B f settings)
  end.

(** ** [App.tsx]: the settings handlers *)

(** [{...settings, preset}], [{...settings, width}], [{...settings, height}] *)
Definition update_preset (settings : ProcessingSettings.t)
    (preset : ResolutionPreset) : ProcessingSettings.t :=
  ProcessingSettings.mk preset
    (ProcessingSettings.width settings) (ProcessingSettings.height settings)
    (ProcessingSettings.format settings) (ProcessingSettings.quality settings)
    (ProcessingSettings.fitMode settings)
    (ProcessingSettings.keepAspectRatio settings)
    (ProcessingSettings.backgroundColor settings).

Definition update_width (settings : ProcessingSettings.t)
    (width : JS.number) : ProcessingSettings.t :=
  ProcessingSettings.mk (ProcessingSettings.preset settings)
    width (ProcessingSettings.height settings)
    (ProcessingSettings.format settings) (ProcessingSettings.quality settings)
    (ProcessingSettings.fitMode settings)
    (ProcessingSettings.keepAspectRatio settings)
    (ProcessingSettings.backgroundColor settings).

Definition update_height (settings : ProcessingSettings.t)
    (height : JS.number) : ProcessingSettings.t :=
  ProcessingSettings.mk (ProcessingSettings.preset settings)
    (ProcessingSettings.width settings) height
    (ProcessingSettings.format settings) (ProcessingSettings.quality settings)
    (ProcessingSettings.fitMode settings)
    (ProcessingSettings.keepAspectRatio settings)
    (ProcessingSettings.backgroundColor settings).

Definition handlePresetChange (settings : ProcessingSettings.t)
    (preset : ResolutionPreset) : ProcessingSettings.t :=
  let newSettings := update_preset settings preset in
  if negb (preset_eqb preset CUSTOM) then
    let newSettings :=
      update_width newSettings (ResolutionDef.width (RESOLUTIONS preset)) in
    update_height newSettings (ResolutionDef.height (RESOLUTIONS preset))
  else newSettings.

(** [Math.max(a, b)] *)
Definition Math_max (a b : JS.number) : JS.number :=
  match a, b with
  | JS.NaN, _ | _, JS.NaN => JS.NaN
  | _, _ => if JS.gt b a then b else a
  end.

(** The value of a character as a digit, for radices up to 36. *)
Definition digit_value (c : ascii) : option Z :=
  let n := nat_of_ascii c in
  if (48 <=? n)%nat && (n <=? 57)%nat then Some (Z.of_nat (n - 48))
  else if (97 <=? n)%nat && (n <=? 122)%nat then Some (Z.of_nat (n - 87))
  else if (65 <=? n)%nat && (n <=? 90)%nat then Some (Z.of_nat (n - 55))
  else None.

Definition radix_digit (R : Z) (c : ascii) : option Z :=
  match digit_value c with
  | Some d => if (d <? R)%Z then Some d else None
  | None => None
  end.

(** Leading white space removed (the ASCII white space of [is_space]). *)
Fixpoint trim_start (s : string) : string :=
  match s with
  | EmptyString => EmptyString
  | String c r => if is_space c then trim_start r else s
  end.

(** The integer written by the longest prefix of radix-[R] digits, read
    after the digits already accumulated in [acc]; [None] when there is no
    digit at all. *)
Fixpoint parse_digits (R : Z) (s : string) (acc : option Z) : option Z :=
  match s with
  | EmptyString => acc
  | String c r =>
      match radix_digit R c with
      | Some d =>
          parse_digits R r
            (Some (match acc with Some a => a * R + d | None => d end)%Z)
      | None => acc
      end
  end.

(** [parseInt(s)], no radix given: white space, a sign, a [0x] prefix, then
    digits; NaN when no digit follows.  The integer read is kept exact: it
    is the number the code returns when its magnitude is at most 2^53,
    beyond which the code rounds to a double. *)
Definition parseInt (s : string) : JS.number :=
  let inputString := trim_start s in
  let '(sign, inputString) :=
    match inputString with
    | String "-" r => ((-1)%Z, r)
    | String "+" r => (1%Z, r)
    | _ => (1%Z, inputString)
    end in
  let '(R, inputString) :=
    match inputString with
    | String "0" (String "x" r) | String "0" (String "X" r) => (16%Z, r)
    | _ => (10%Z, inputString)
    end in
  match parse_digits R inputString None with
  | None => JS.NaN
  | Some mathInt => JS.Fin (inject_Z (sign * mathInt))
  end.

(** The value an [onChange] of the width or height field stores:
    [Math.max(0, parseInt(e.target.value) || 0)]. *)
Definition typed_dimension (value : string) : JS.number :=
  Math_max 0 (JS.or_else (JS.Num (parseInt value)) 0).

Definition onChange_width (settings : ProcessingSettings.t)
    (value : string) : ProcessingSettings.t :=
  update_width settings (typed_dimension value).

Definition onChange_height (settings : ProcessingSettings.t)
    (value : string) : ProcessingSettings.t :=
  update_height settings (typed_dimension value).

(** ** [App.tsx]: the component's state and its file handlers *)

(** A [File] as the component reads it: the service's fields and [type]. *)
Module Upload.
Record t : Type := mk { file : File.t; type : string }.
End Upload.

(** What the handlers do to the outside. *)
Inductive Effect : Type :=
| Alert (message : string)
| ConsoleError (e : Error)
| RevokeObjectURL (url : string).

(** The state of the component.  A handler is a function of the state of
    the render it belongs to and runs to its end before the next one: the
    interleaving of an unfinished [handleProcess] with other handlers is not
    modelled. *)
Module App.
Record t : Type := mk {
  file : option Upload.t;
  previewUrl : option string;
  settings : ProcessingSettings.t;
  isProcessing : bool;
  result : option ProcessedImage.t;
  dragActive : bool
}.
End App.

(** [if (url) URL.revokeObjectURL(url)]: null and the empty string are falsy. *)
Definition revoke_if_set (url : option string) : list Effect :=
  match url with
  | Some u => if String.eqb u "" then [] else [RevokeObjectURL u]
  | None => []
  end.

Definition handleFile (B : Browser) (st : App.t) (selectedFile : Upload.t)
    : App.t * list Effect :=
  if negb (String.prefix "image/" (Upload.type selectedFile)) then
    (st, [Alert "Please upload an image file."])
  else
    let revoked_preview := revoke_if_set (App.previewUrl st) in
    let '(revoked_result, result) :=
      match App.result st with
      | Some r => ([RevokeObjectURL (ProcessedImage.url r)], None)
      | None => ([], App.result st)
      end in
    (App.mk (Some selectedFile)
       (Some (createObjectURL B (File.blob (Upload.file selectedFile))))
       (App.settings st) (App.isProcessing st) result (App.dragActive st),
     (revoked_preview ++ revoked_result)%list).

(** [handleProcess] with the state it leaves: the guard, then
    [setIsProcessing(true)], the awaited [processImage], [setResult] or the
    [catch], and [setIsProcessing(false)] in the [finally]. *)
Definition handleProcess_state (B : Browser) (st : App.t) : App.t * list Effect :=
  match handleProcess B (option_map Upload.file (App.file st)) (App.settings st) with
  | None => (st, [])
  | Some (Resolved processed) =>
      (App.mk (App.file st) (App.previewUrl st) (App.settings st) false
         (Some processed) (App.dragActive st), [])
  | Some (Rejected error) =>
      (App.mk (App.file st) (App.previewUrl st) (App.settings st) false
         (App.result st) (App.dragActive st),
       [ConsoleError error;
        Alert "Failed to process image. See console for details."])
  end.

(** ** Sample inputs *)

(** A browser in which every external step succeeds. *)
Definition sample_browser : Browser := {|
  getContext2d := true;
  toBlob := fun _ _ _ => Some [];
  createObjectURL := fun _ => "blob:0";
  createImageBitmap := fun _ => Some (ImageSource.mk (JS.Num 4000) (JS.Num 2000));
  loadImage := fun _ => None;
  numberToString := fun _ => "?"
|}.

(** A browser in which neither decoder accepts the file. *)
Definition undecodable_browser : Browser := {|
  getContext2d := true;
  toBlob := fun _ _ _ => Some [];
  createObjectURL := fun _ => "blob:0";
  createImageBitmap := fun _ => None;
  loadImage := fun _ => None;
  numberToString := fun _ => "?"
|}.

Definition image (w h : Q) : ImageSource.t :=
  ImageSource.mk (JS.Num w) (JS.Num h).

Definition sample_file : File.t := File.mk "photo.png" [].

(** The component holding an image file, before any conversion. *)
Definition sample_state (settings : ProcessingSettings.t) : App.t :=
  App.mk (Some (Upload.mk sample_file "image/png")) (Some "blob:0")
    settings false None false.

(** [DEFAULT_SETTINGS] of [App.tsx]. *)
Definition DEFAULT_SETTINGS : ProcessingSettings.t :=
  ProcessingSettings.mk UHD_4K 3840 2160 JPEG (9 # 10) CONTAIN true "#000000".

Definition custom_settings (w h : JS.number) : ProcessingSettings.t :=
  ProcessingSettings.mk CUSTOM w h JPEG (9 # 10) CONTAIN true "#000000".

(** ** Vocabulary of the statements *)

(** A number strictly above zero, +Infinity included. *)
Definition is_positive (n : JS.number) : Prop :=
  match n with
  | JS.Fin q => 0 < q
  | JS.PosInf => True
  | _ => False
  end.

(** A number at most zero, -Infinity included. *)
Definition is_nonpositive (n : JS.number) : Prop :=
  match n with
  | JS.Fin q => q <= 0
  | JS.NegInf => True
  | _ => False
  end.

(** A natural size as an image source reports it: absent, or not negative. *)
Definition natural_size (v : JS.value) : Prop :=
  match v with
  | JS.Num (JS.Fin q) => 0 <= q
  | JS.Num JS.NegInf => False
  | _ => True
  end.

(** Whether a string holds a full stop. *)
Fixpoint has_dot (s : string) : bool :=
  match s with
  | EmptyString => false
  | String c r => Ascii.eqb c "." || has_dot r
  end.

(** Whether an operation paints the fill style. *)
Definition is_fill (op : DrawOp) : bool :=
  match op with
  | FillRect _ _ _ _ _ => true
  | _ => false
  end.

(** Rectangles equal component by component, up to the representation of
    the rationals. *)
Definition rect_eqv (a b : Rect.t) : Prop :=
  JS.eqv (Rect.drawX a) (Rect.drawX b) /\ JS.eqv (Rect.drawY a) (Rect.drawY b)
  /\ JS.eqv (Rect.drawW a) (Rect.drawW b) /\ JS.eqv (Rect.drawH a) (Rect.drawH b).

(** A rectangle with every coordinate multiplied by [k]. *)
Definition rect_scale (k : JS.number) (a : Rect.t) : Rect.t :=
  Rect.mk (JS.mul k (Rect.drawX a)) (JS.mul k (Rect.drawY a))
          (JS.mul k (Rect.drawW a)) (JS.mul k (Rect.drawH a)).

(** A rectangle with its two axes exchanged. *)
Definition rect_transpose (a : Rect.t) : Rect.t :=
  Rect.mk (Rect.drawY a) (Rect.drawX a) (Rect.drawH a) (Rect.drawW a).

(** A text made of ASCII characters only. *)
Fixpoint ascii_text (s : string) : bool :=
  match s with
  | EmptyString => true
  | String c r => (nat_of_ascii c <? 128)%nat && ascii_text r
  end.

(** The integer a text is read as by [parseInt], when it is read as one,
    is among those a double holds exactly. *)
Definition reads_safe_integer (value : string) : Prop :=
  forall k : Z, parseInt value = JS.Fin (inject_Z k) -> (Z.abs k <= 2 ^ 53)%Z.

Definition is_revoke (e : Effect) : bool :=
  match e with
  | RevokeObjectURL _ => true
  | _ => false
  end.

(** The image [processImage] renders: the bitmap when [createImageBitmap]
    succeeds, otherwise the [Image] loaded from an object URL of the file. *)
Definition decoded (B : Browser) (sourceFile : File.t) : option ImageSource.t :=
  match createImageBitmap B sourceFile with
  | Some bitmap => Some bitmap
  | None => loadImage B (createObjectURL B (File.blob sourceFile))
  end.

(** The quality argument of [canvas.toBlob]. *)
Definition encoder_quality (s : ProcessingSettings.t) : option JS.number :=
  if format_eqb (ProcessingSettings.format s) PNG
  then None else Some (ProcessingSettings.quality s).

(** Two settings records that agree on everything the pipeline reads: the
    preset, the format, the fit mode and the background; the width and
    height under the Custom preset; the quality unless the format is PNG. *)
Definition agree_on_what_is_read (s s' : ProcessingSettings.t) : Prop :=
  ProcessingSettings.preset s = ProcessingSettings.preset s'
  /\ ProcessingSettings.format s = ProcessingSettings.format s'
  /\ ProcessingSettings.fitMode s = ProcessingSettings.fitMode s'
  /\ ProcessingSettings.backgroundColor s = ProcessingSettings.backgroundColor s'
  /\ (ProcessingSettings.preset s = CUSTOM ->
      ProcessingSettings.width s = ProcessingSettings.width s'
      /\ ProcessingSettings.height s = ProcessingSettings.height s')
  /\ (ProcessingSettings.format s <> PNG ->
      ProcessingSettings.quality s = ProcessingSettings.quality s').


Definition rejects {A} (p : Promise A) : Prop := exists e, p = Rejected e.

Definition exactly_one (P Q : Prop) : Prop := (P /\ ~ Q) \/ (~ P /\ Q).

(** The encoder never hands [null] to the callback. *)
Definition encoder_total (B : Browser) : Prop :=
  forall c m q, toBlob B c m q <> None.

(** * Properties *)

(** ** Numbers *)

Lemma Qlt_bool_iff (a b : Q) : JS.Qlt_bool a b = true <-> a < b.
Proof.
  unfold JS.Qlt_bool. rewrite negb_true_iff. split; intros H.
  - apply Qnot_le_lt. intros Hle. apply Qle_bool_iff in Hle. congruence.
  - destruct (Qle_bool b a) eqn:E; trivial.
    apply Qle_bool_iff in E. exfalso. exact (Qlt_not_le _ _ H E).
Qed.

Lemma Qeq_bool_false_iff (a b : Q) : Qeq_bool a b = false <-> ~ a == b.
Proof.
  split.
  - apply Qeq_bool_neq.
  - intros H. destruct (Qeq_bool a b) eqn:E; trivial.
    apply Qeq_bool_iff in E. contradiction.
Qed.

Lemma le_zero_iff (n : JS.number) : JS.le n 0 = true <-> is_nonpositive n.
Proof.
  destruct n; simpl; try (split; [discriminate | contradiction]).
  - apply Qle_bool_iff.
  - split; trivial.
Qed.

Lemma unusable_iff (n : JS.number) :
  unusable n = true <-> is_nonpositive n \/ n = JS.NaN.
Proof.
  unfold unusable. rewrite orb_true_iff, le_zero_iff, negb_true_iff.
  destruct n as [q | | |]; simpl.
  - rewrite negb_false_iff, Qeq_bool_iff. split.
    + intros [H | H]; left; [rewrite H; apply Qle_refl | exact H].
    + intros [H | H]; [right; exact H | discriminate].
  - split; [intros [H | []]; discriminate | intros [[] | H]; discriminate].
  - split; auto.
  - split; auto.
Qed.

Lemma usable_iff (n : JS.number) : unusable n = false <-> is_positive n.
Proof.
  split.
  - intros H. destruct n as [q | | |]; simpl; trivial.
    + apply Qnot_le_lt. intros Hle.
      assert (unusable (JS.Fin q) = true) by (apply unusable_iff; left; exact Hle).
      congruence.
    + assert (unusable JS.NegInf = true) by (apply unusable_iff; left; exact I).
      congruence.
    + discriminate H.
  - intros H. destruct (unusable n) eqn:E; trivial.
    apply unusable_iff in E. destruct n as [q | | |]; simpl in *;
      try contradiction.
    + destruct E as [E | E]; [| discriminate].
      exfalso. exact (Qlt_not_le _ _ H E).
    + destruct E as [[] | E]; discriminate.
Qed.

Lemma or_else_positive (v : JS.value) (d : JS.number) :
  natural_size v -> is_positive d -> is_positive (JS.or_else v d).
Proof.
  intros Hv Hd. destruct v as [| [q | | |]]; simpl in *; trivial; try contradiction.
  destruct (Qeq_bool q 0) eqn:E; simpl; trivial.
  apply Qeq_bool_false_iff in E.
  apply Qle_lt_or_eq in Hv. destruct Hv as [Hv | Hv]; trivial.
  exfalso. apply E. symmetry. exact Hv.
Qed.

Lemma safety_check_positive (img : ImageSource.t) (w h : JS.number) :
  natural_size (ImageSource.width img) ->
  natural_size (ImageSource.height img) ->
  is_positive (fst (safety_check img w h)) /\
  is_positive (snd (safety_check img w h)).
Proof.
  intros Hw Hh. unfold safety_check. simpl. split.
  - destruct (unusable w) eqn:E.
    + apply or_else_positive; [exact Hw | simpl; reflexivity].
    + apply usable_iff. exact E.
  - destruct (unusable h) eqn:E.
    + apply or_else_positive; [exact Hh | simpl; reflexivity].
    + apply usable_iff. exact E.
Qed.

(** ** The pipeline's outcomes *)

(** [renderToCanvas] unfolded: it rejects exactly when the context or the
    blob is missing, and otherwise resolves with the target dimensions. *)
Lemma renderToCanvas_outcome (B : Browser) (img : ImageSource.t)
    (name : string) (s : ProcessingSettings.t) :
  renderToCanvas B img name s =
    let tw := fst (target_dimensions img s) in
    let th := snd (target_dimensions img s) in
    if getContext2d B then
      match composited B img s with
      | Resolved c =>
          match toBlob B c (mime (ProcessingSettings.format s))
                  (if format_eqb (ProcessingSettings.format s) PNG
                   then None else Some (ProcessingSettings.quality s)) with
          | Some blob =>
              Resolved (ProcessedImage.mk blob (createObjectURL B blob)
                          (generate_filename B name s tw th) tw th)
          | None => Rejected CanvasToBlobError
          end
      | Rejected e => Rejected e
      end
    else Rejected CanvasContextError.
Proof.
  unfold renderToCanvas, composited.
  destruct (target_dimensions img s) as [tw th]. simpl.
  destruct (getContext2d B) eqn:E.
  - unfold run, bind, composite, export, draw_background, bind. rewrite E.
    simpl.
    destruct (format_eqb (ProcessingSettings.format s) JPEG
              && (ProcessingSettings.backgroundColor s =? "transparent")%string);
      destruct (negb (ProcessingSettings.backgroundColor s =? "transparent")%string);
      simpl; unfold read; simpl;
      match goal with |- context [toBlob ?b ?c ?m ?q] =>
        destruct (toBlob b c m q) end; reflexivity.
  - unfold run, bind, composite, bind. rewrite E. reflexivity.
Qed.

(** The canvas handed to the encoder, in closed form. *)
Lemma composited_canvas (B : Browser) (img : ImageSource.t)
    (s : ProcessingSettings.t) :
  getContext2d B = true ->
  let tw := fst (target_dimensions img s) in
  let th := snd (target_dimensions img s) in
  let bg := ProcessingSettings.backgroundColor s in
  let style :=
    if format_eqb (ProcessingSettings.format s) JPEG && String.eqb bg "transparent"
    then "#000000" else bg in
  let r := draw_position img (ProcessingSettings.fitMode s) tw th in
  composited B img s =
    Resolved (Canvas.mk (canvas_dimension 300 tw) (canvas_dimension 150 th)
                style true "high"
      [ if negb (String.eqb bg "transparent")
        then FillRect style 0 0 tw th else ClearRect 0 0 tw th;
        DrawImage img (Rect.drawX r) (Rect.drawY r) (Rect.drawW r) (Rect.drawH r) ]).
Proof.
  intros E. unfold composited.
  destruct (target_dimensions img s) as [tw th]. simpl.
  unfold run, bind, composite, draw_background, bind. rewrite E. simpl.
  destruct (format_eqb (ProcessingSettings.format s) JPEG
            && (ProcessingSettings.backgroundColor s =? "transparent")%string);
    destruct (negb (ProcessingSettings.backgroundColor s =? "transparent")%string);
    reflexivity.
Qed.

Lemma renderToCanvas_resolves (B : Browser) (img : ImageSource.t)
    (name : string) (s : ProcessingSettings.t) :
  getContext2d B = true -> encoder_total B ->
  exists blob,
    renderToCanvas B img name s =
      Resolved (ProcessedImage.mk blob (createObjectURL B blob)
        (generate_filename B name s (fst (target_dimensions img s))
           (snd (target_dimensions img s)))
        (fst (target_dimensions img s)) (snd (target_dimensions img s))).
Proof.
  intros Hctx Henc. rewrite renderToCanvas_outcome. simpl. rewrite Hctx.
  rewrite (composited_canvas B img s Hctx). simpl.
  match goal with |- context [toBlob ?b ?c ?m ?q] =>
    destruct (toBlob b c m q) as [blob |] eqn:E end.
  - exists blob. reflexivity.
  - exfalso. exact (Henc _ _ _ E).
Qed.

Lemma renderToCanvas_rejections (B : Browser) (img : ImageSource.t)
    (name : string) (s : ProcessingSettings.t) (e : Error) :
  renderToCanvas B img name s = Rejected e ->
  (e = CanvasContextError /\ getContext2d B = false) \/
  (e = CanvasToBlobError /\ getContext2d B = true).
Proof.
  rewrite renderToCanvas_outcome. simpl.
  destruct (getContext2d B) eqn:Hctx.
  - rewrite (composited_canvas B img s Hctx). simpl.
    match goal with |- context [toBlob ?b ?c ?m ?q] =>
      destruct (toBlob b c m q) end; intros H; inversion H. right. split; reflexivity.
  - intros H. inversion H. left. split; reflexivity.
Qed.

Lemma resolved_not_rejects {A} (a : A) : ~ rejects (Resolved a).
Proof. intros [e H]. discriminate H. Qed.

(** ** Target dimensions *)

Lemma requested_dimensions_preset (s : ProcessingSettings.t) :
  ProcessingSettings.preset s <> CUSTOM ->
  requested_dimensions s =
    (ResolutionDef.width (RESOLUTIONS (ProcessingSettings.preset s)),
     ResolutionDef.height (RESOLUTIONS (ProcessingSettings.preset s))).
Proof.
  intros H. unfold requested_dimensions.
  destruct (ProcessingSettings.preset s); try reflexivity. contradiction.
Qed.


(** C8: when the preset is not Custom, the target dimensions are the
    preset's entry in [RESOLUTIONS] (3840 x 2160 for 4K UHD), whatever width
    and height the settings carry and whatever the source image is. *)
Theorem preset_dimensions_win (img : ImageSource.t) (s : ProcessingSettings.t) :
  ProcessingSettings.preset s <> CUSTOM ->
  target_dimensions img s =
    (ResolutionDef.width (RESOLUTIONS (ProcessingSettings.preset s)),
     ResolutionDef.height (RESOLUTIONS (ProcessingSettings.preset s)))
  /\ (ProcessingSettings.preset s = UHD_4K ->
      target_dimensions img s = (JS.Fin 3840, JS.Fin 2160)).
Proof.
  intros H.
  assert (E : target_dimensions img s =
    (ResolutionDef.width (RESOLUTIONS (ProcessingSettings.preset s)),
     ResolutionDef.height (RESOLUTIONS (ProcessingSettings.preset s)))).
  { unfold target_dimensions. rewrite (requested_dimensions_preset s H).
    destruct (ProcessingSettings.preset s); try reflexivity. contradiction. }
  split; [exact E |].
  intros Hp. rewrite E, Hp. reflexivity.
Qed.

Lemma preset_dimensions_win_witness :
  target_dimensions (image 640 480)
    (ProcessingSettings.mk UHD_4K 7 (-3) PNG 1 COVER false "#ffffff")
  = (JS.Fin 3840, JS.Fin 2160).
Proof.
  apply (preset_dimensions_win (image 640 480)
           (ProcessingSettings.mk UHD_4K 7 (-3) PNG 1 COVER false "#ffffff")).
  - simpl. discriminate.
  - reflexivity.
Defined.

(** C10: a requested width that is zero, negative or NaN is replaced by the
    source's width when that is a truthy number and by 1920 otherwise; the
    height likewise with 1080; [renderToCanvas] does not fail on such
    dimensions, and processing proceeds with the replaced ones: they are the
    numbers assigned to the canvas, the rectangle of the background fill or
    clear, the target of the draw position, the size reported and the size
    in the file name, and the blob returned is the encoder's output for
    that canvas. *)
Theorem safety_check_substitutes (B : Browser) (img : ImageSource.t)
    (name : string) (s : ProcessingSettings.t) :
  (is_nonpositive (fst (requested_dimensions s))
     \/ fst (requested_dimensions s) = JS.NaN ->
   fst (target_dimensions img s) =
     if JS.truthy (ImageSource.width img)
     then JS.toNumber (ImageSource.width img) else JS.Fin 1920)
  /\
  (is_nonpositive (snd (requested_dimensions s))
     \/ snd (requested_dimensions s) = JS.NaN ->
   snd (target_dimensions img s) =
     if JS.truthy (ImageSource.height img)
     then JS.toNumber (ImageSource.height img) else JS.Fin 1080)
  /\
  (getContext2d B = true -> encoder_total B ->
   let tw := fst (target_dimensions img s) in
   let th := snd (target_dimensions img s) in
   let r := draw_position img (ProcessingSettings.fitMode s) tw th in
   exists p c background,
     renderToCanvas B img name s = Resolved p
     /\ ProcessedImage.width p = tw
     /\ ProcessedImage.height p = th
     /\ ProcessedImage.filename p = generate_filename B name s tw th
     /\ composited B img s = Resolved c
     /\ Canvas.width c = canvas_dimension 300 tw
     /\ Canvas.height c = canvas_dimension 150 th
     /\ Canvas.ops c =
          [background;
           DrawImage img (Rect.drawX r) (Rect.drawY r) (Rect.drawW r) (Rect.drawH r)]
     /\ (background = ClearRect 0 0 tw th
         \/ background = FillRect (Canvas.fillStyle c) 0 0 tw th)
     /\ toBlob B c (mime (ProcessingSettings.format s)) (encoder_quality s)
        = Some (ProcessedImage.blob p)).
Proof.
  split; [| split].
  - unfold target_dimensions.
    destruct (requested_dimensions s) as [w h]. simpl.
    intros H. apply unusable_iff in H. rewrite H.
    destruct (ImageSource.width img) as [| n]; reflexivity.
  - unfold target_dimensions.
    destruct (requested_dimensions s) as [w h]. simpl.
    intros H. apply unusable_iff in H. rewrite H.
    destruct (ImageSource.height img) as [| n]; reflexivity.
  - intros Hctx Henc tw th r.
    pose proof (composited_canvas B img s Hctx) as Ec. simpl in Ec.
    pose proof (renderToCanvas_outcome B img name s) as Er. simpl in Er.
    rewrite Hctx, Ec in Er. unfold encoder_quality.
    match type of Er with context [toBlob ?b ?c ?m ?q] =>
      destruct (toBlob b c m q) as [blob |] eqn:Et end;
      [| exfalso; exact (Henc _ _ _ Et)].
    do 3 eexists. split; [exact Er |]. simpl.
    do 3 (split; [reflexivity |]).
    split; [exact Ec |]. simpl.
    do 3 (split; [reflexivity |]).
    split; [| exact Et].
    destruct (negb (ProcessingSettings.backgroundColor s =? "transparent")%string);
      [right | left]; reflexivity.
Qed.

Lemma safety_check_substitutes_witness :
  fst (target_dimensions (image 4000 2000) (custom_settings 0 JS.NaN)) = JS.Fin 4000
  /\ snd (target_dimensions (image 4000 2000) (custom_settings 0 JS.NaN)) = JS.Fin 2000
  /\ exists p c background,
       renderToCanvas sample_browser (image 4000 2000) "photo.png"
         (custom_settings 0 JS.NaN) = Resolved p
       /\ ProcessedImage.width p = JS.Fin 4000
       /\ ProcessedImage.height p = JS.Fin 2000
       /\ ProcessedImage.filename p = "photo_4000x2000_Custom.jpg"
       /\ composited sample_browser (image 4000 2000) (custom_settings 0 JS.NaN)
          = Resolved c
       /\ Canvas.width c = JS.Fin 4000
       /\ Canvas.height c = JS.Fin 2000
       /\ Canvas.ops c =
            (let r := draw_position (image 4000 2000) CONTAIN 4000 2000 in
             [background;
              DrawImage (image 4000 2000) (Rect.drawX r) (Rect.drawY r)
                (Rect.drawW r) (Rect.drawH r)])
       /\ (background = ClearRect 0 0 (JS.Fin 4000) (JS.Fin 2000)
           \/ background = FillRect (Canvas.fillStyle c) 0 0 (JS.Fin 4000) (JS.Fin 2000))
       /\ toBlob sample_browser c (mime JPEG)
            (encoder_quality (custom_settings 0 JS.NaN))
          = Some (ProcessedImage.blob p).
Proof.
  destruct (safety_check_substitutes sample_browser (image 4000 2000) "photo.png"
              (custom_settings 0 JS.NaN)) as [Hw [Hh Hr]].
  split; [| split].
  - apply Hw. left. simpl. apply Qle_refl.
  - apply Hh. right. reflexivity.
  - apply Hr; [reflexivity | intros c m q; discriminate].
Defined.

(** The defaults of the safety check, for a source that reports no size. *)
Example safety_check_defaults :
  target_dimensions (ImageSource.mk JS.Undefined (JS.Num 0)) (custom_settings (-1) 0)
  = (JS.Fin 1920, JS.Fin 1080).
Proof. reflexivity. Qed.

(** ** Validation of custom dimensions *)

Lemma isValid_false_iff (s : ProcessingSettings.t) :
  isValid s = false <->
  ProcessingSettings.preset s = CUSTOM /\
  (is_nonpositive (ProcessingSettings.width s)
   \/ is_nonpositive (ProcessingSettings.height s)).
Proof.
  unfold isValid, widthError, heightError, isCustom.
  rewrite <- !le_zero_iff.
  destruct (ProcessingSettings.preset s); simpl;
    try (split; [discriminate | intros [H _]; discriminate H]).
  destruct (JS.le (ProcessingSettings.width s) 0);
    destruct (JS.le (ProcessingSettings.height s) 0); simpl;
    split; auto; try discriminate.
  intros [_ [H | H]]; discriminate H.
Qed.

(** C1, counterexample: with preset Custom, width 0 and height -5 the
    pipeline does not fail: it resolves, with the source's 4000 x 2000 as
    the output size. *)
Lemma invalid_custom_dimensions_not_rejected :
  processImage sample_browser sample_file (custom_settings 0 (-5))
    = Resolved (ProcessedImage.mk [] "blob:0" "photo_4000x2000_Custom.jpg"
                  (JS.Fin 4000) (JS.Fin 2000))
  /\ ~ rejects (processImage sample_browser sample_file (custom_settings 0 (-5))).
Proof.
  assert (E : processImage sample_browser sample_file (custom_settings 0 (-5))
    = Resolved (ProcessedImage.mk [] "blob:0" "photo_4000x2000_Custom.jpg"
                  (JS.Fin 4000) (JS.Fin 2000))) by reflexivity.
  split; [exact E |]. rewrite E. apply resolved_not_rejects.
Qed.

(** C1, amended: with preset Custom and width <= 0 or height <= 0 the
    settings are not valid and [handleProcess] returns at its guard without
    calling the pipeline, so through the handler such dimensions never reach
    the encoder; the pipeline called directly does not reject them; and with
    Custom 100 x 100 the settings are valid and the pipeline resolves with a
    100 x 100 result. *)
Theorem invalid_custom_dimensions_gated (B : Browser) (file : option File.t)
    (img : ImageSource.t) (name : string) (s : ProcessingSettings.t) :
  ProcessingSettings.preset s = CUSTOM ->
  is_nonpositive (ProcessingSettings.width s)
    \/ is_nonpositive (ProcessingSettings.height s) ->
  isValid s = false
  /\ handleProcess B file s = None
  /\ (getContext2d B = true -> encoder_total B ->
      ~ rejects (renderToCanvas B img name s)
      /\ forall f q m k bg,
           let s' := ProcessingSettings.mk CUSTOM 100 100 f q m k bg in
           isValid s' = true
           /\ exists p, renderToCanvas B img name s' = Resolved p
                /\ ProcessedImage.width p = JS.Fin 100
                /\ ProcessedImage.height p = JS.Fin 100).
Proof.
  intros Hp Hdim.
  assert (Hv : isValid s = false) by (apply isValid_false_iff; auto).
  split; [exact Hv |]. split.
  - unfold handleProcess. destruct file; trivial. rewrite Hv. reflexivity.
  - intros Hctx Henc. split.
    + destruct (renderToCanvas_resolves B img name s Hctx Henc) as [blob E].
      rewrite E. apply resolved_not_rejects.
    + intros f q m k bg s'. split; [reflexivity |].
      destruct (renderToCanvas_resolves B img name s' Hctx Henc) as [blob E].
      eexists. split; [exact E |]. split; reflexivity.
Qed.

Lemma invalid_custom_dimensions_gated_witness :
  isValid (custom_settings 0 (-5)) = false
  /\ handleProcess sample_browser (Some sample_file) (custom_settings 0 (-5)) = None
  /\ ~ rejects (renderToCanvas sample_browser (image 4000 2000) "photo.png"
                  (custom_settings 0 (-5)))
  /\ (forall f q m k bg,
        let s' := ProcessingSettings.mk CUSTOM 100 100 f q m k bg in
        isValid s' = true
        /\ exists p,
             renderToCanvas sample_browser (image 4000 2000) "photo.png" s' = Resolved p
             /\ ProcessedImage.width p = JS.Fin 100
             /\ ProcessedImage.height p = JS.Fin 100).
Proof.
  destruct (invalid_custom_dimensions_gated sample_browser (Some sample_file)
              (image 4000 2000) "photo.png" (custom_settings 0 (-5)))
    as [Hv [Hgate Hdirect]].
  - reflexivity.
  - left. simpl. apply Qle_refl.
  - split; [exact Hv |]. split; [exact Hgate |].
    apply Hdirect; [reflexivity | intros c m q; discriminate].
Defined.

(** ** The geometry step has no guard *)

(** C3, counterexample: a source of height 0 is not refused; the source
    ratio is computed by a division by zero (giving +Infinity) and the
    pipeline resolves. *)
Lemma zero_height_source_not_rejected :
  JS.div (JS.toNumber (ImageSource.width (image 4000 0)))
         (JS.toNumber (ImageSource.height (image 4000 0))) = JS.PosInf
  /\ ~ rejects (renderToCanvas sample_browser (image 4000 0) "photo.png"
                  DEFAULT_SETTINGS).
Proof.
  split; [reflexivity |].
  destruct (renderToCanvas_resolves sample_browser (image 4000 0) "photo.png"
              DEFAULT_SETTINGS) as [blob E];
    [reflexivity | intros c m q; discriminate |].
  rewrite E. apply resolved_not_rejects.
Qed.

(** C3, amended: no dimension is ever refused, [renderToCanvas] rejects
    only for a missing context or a missing blob; and when the source's
    width and height are absent or not negative, the safety check makes both
    target dimensions strictly positive before the geometry step, so the
    divisor of targetW / targetH is not zero. *)
Theorem geometry_step_unguarded (B : Browser) (img : ImageSource.t)
    (name : string) (s : ProcessingSettings.t) :
  (forall e, renderToCanvas B img name s = Rejected e ->
     e = CanvasContextError \/ e = CanvasToBlobError)
  /\ (getContext2d B = true -> encoder_total B ->
      ~ rejects (renderToCanvas B img name s))
  /\ (natural_size (ImageSource.width img) ->
      natural_size (ImageSource.height img) ->
      is_positive (fst (target_dimensions img s))
      /\ is_positive (snd (target_dimensions img s))
      /\ ~ JS.eqv (snd (target_dimensions img s)) 0).
Proof.
  split; [| split].
  - intros e H. apply renderToCanvas_rejections in H. tauto.
  - intros Hctx Henc.
    destruct (renderToCanvas_resolves B img name s Hctx Henc) as [blob E].
    rewrite E. apply resolved_not_rejects.
  - intros Hw Hh.
    unfold target_dimensions. destruct (requested_dimensions s) as [w h].
    destruct (safety_check_positive img w h Hw Hh) as [H1 H2].
    split; [exact H1 |]. split; [exact H2 |].
    destruct (snd (safety_check img w h)) as [q | | |]; simpl in *; try tauto.
    intros E. rewrite E in H2. exact (Qlt_irrefl _ H2).
Qed.

Lemma geometry_step_unguarded_witness :
  ~ rejects (renderToCanvas sample_browser (image 4000 0) "photo.png"
               (custom_settings 0 0))
  /\ is_positive (fst (target_dimensions (image 4000 0) (custom_settings 0 0)))
  /\ is_positive (snd (target_dimensions (image 4000 0) (custom_settings 0 0)))
  /\ ~ JS.eqv (snd (target_dimensions (image 4000 0) (custom_settings 0 0))) 0.
Proof.
  destruct (geometry_step_unguarded sample_browser (image 4000 0) "photo.png"
              (custom_settings 0 0)) as [_ [Hres Hpos]].
  split.
  - apply Hres; [reflexivity | intros c m q; discriminate].
  - apply Hpos.
    + simpl. discriminate.
    + simpl. apply Qle_refl.
Defined.

(** ** Rational arithmetic behind the fit modes *)

Lemma Qpos_neq0 (a : Q) : 0 < a -> ~ a == 0.
Proof. intros H E. rewrite E in H. exact (Qlt_irrefl _ H). Qed.

Lemma Qdiv_pos (a b : Q) : 0 < a -> 0 < b -> 0 < a / b.
Proof. intros Ha Hb. apply Qlt_shift_div_l; [exact Hb | lra]. Qed.

Lemma Qdiv_mul_cancel (a b : Q) : 0 < b -> a / b * b == a.
Proof. intros Hb. field. apply Qpos_neq0. exact Hb. Qed.

Lemma Qdiv_lt_iff (a b c : Q) : 0 < b -> (a / b < c <-> a < c * b).
Proof.
  intros Hb. rewrite <- (Qmult_lt_r (a / b) c b Hb).
  rewrite (Qdiv_mul_cancel a b Hb). reflexivity.
Qed.

Lemma Qdiv_le_iff (a b c : Q) : 0 < b -> (a / b <= c <-> a <= c * b).
Proof.
  intros Hb. rewrite <- (Qmult_le_r (a / b) c b Hb).
  rewrite (Qdiv_mul_cancel a b Hb). reflexivity.
Qed.

Lemma Qle_div_iff (a b c : Q) : 0 < c -> (a <= b / c <-> a * c <= b).
Proof.
  intros Hc. rewrite <- (Qmult_le_r a (b / c) c Hc).
  rewrite (Qdiv_mul_cancel b c Hc). reflexivity.
Qed.

Lemma Qdiv_eq_iff (a b c : Q) : 0 < b -> (a / b == c <-> a == c * b).
Proof.
  intros Hb. split; intros H.
  - rewrite <- H. symmetry. apply Qdiv_mul_cancel. exact Hb.
  - rewrite H. field. apply Qpos_neq0. exact Hb.
Qed.

Lemma Qhalf (a : Q) : a / 2 == a * (1 # 2).
Proof. field. Qed.

Section Fit.

Variables r tw th : Q.
Hypothesis Hr : 0 < r.
Hypothesis Htw : 0 < tw.
Hypothesis Hth : 0 < th.

(** The width-bound rectangle: full width, height [tw / r]. *)
Lemma width_bound_le : tw / r <= th <-> tw / th <= r.
Proof. rewrite !Qdiv_le_iff by assumption. split; intros H; lra. Qed.

Lemma width_bound_ge : th <= tw / r <-> r <= tw / th.
Proof. rewrite !Qle_div_iff by assumption. split; intros H; lra. Qed.

Lemma width_bound_eq : tw / r == th <-> r == tw / th.
Proof.
  rewrite Qdiv_eq_iff by assumption. split; intros H.
  - symmetry. apply Qdiv_eq_iff; [assumption | lra].
  - symmetry in H. apply Qdiv_eq_iff in H; [lra | assumption].
Qed.

Lemma width_bound_ratio : tw / (tw / r) == r.
Proof. field. split; apply Qpos_neq0; assumption. Qed.

(** The height-bound rectangle: full height, width [th * r]. *)
Lemma height_bound_le : th * r <= tw <-> r <= tw / th.
Proof. rewrite Qle_div_iff by assumption. split; intros H; lra. Qed.

Lemma height_bound_ge : tw <= th * r <-> tw / th <= r.
Proof. rewrite Qdiv_le_iff by assumption. split; intros H; lra. Qed.

Lemma height_bound_eq : th * r == tw <-> r == tw / th.
Proof.
  split; intros H.
  - symmetry. apply Qdiv_eq_iff; [assumption | lra].
  - symmetry in H. apply Qdiv_eq_iff in H; [lra | assumption].
Qed.

Lemma height_bound_ratio : th * r / th == r.
Proof. field. apply Qpos_neq0. assumption. Qed.

End Fit.

(** ** The draw position on positive finite dimensions *)

Lemma div_fin (x y : Q) : ~ y == 0 -> JS.div (JS.Fin x) (JS.Fin y) = JS.Fin (x / y).
Proof.
  intros H. unfold JS.div. apply Qeq_bool_false_iff in H. rewrite H. reflexivity.
Qed.

Lemma draw_position_stretch (img : ImageSource.t) (tw th : JS.number) :
  draw_position img STRETCH tw th = Rect.mk 0 0 tw th.
Proof. reflexivity. Qed.

Section Placement.

Variables sw sh tw th : Q.
Hypothesis Hsw : 0 < sw.
Hypothesis Hsh : 0 < sh.
Hypothesis Htw : 0 < tw.
Hypothesis Hth : 0 < th.

Let srcRatio : Q := sw / sh.
Let dstRatio : Q := tw / th.

Lemma srcRatio_pos : 0 < sw / sh.
Proof. apply Qdiv_pos; assumption. Qed.

(** No branch of the function divides by zero or leaves the rationals. *)
Lemma draw_position_fin (mode : FitMode) :
  draw_position (image sw sh) mode tw th =
    match mode with
    | CONTAIN =>
        if JS.Qlt_bool dstRatio srcRatio
        then Rect.mk 0 ((th - tw / srcRatio) / 2) tw (tw / srcRatio)
        else Rect.mk ((tw - th * srcRatio) / 2) 0 (th * srcRatio) th
    | COVER =>
        if JS.Qlt_bool dstRatio srcRatio
        then Rect.mk ((tw - th * srcRatio) / 2) 0 (th * srcRatio) th
        else Rect.mk 0 ((th - tw / srcRatio) / 2) tw (tw / srcRatio)
    | STRETCH => Rect.mk 0 0 tw th
    end.
Proof.
  pose proof srcRatio_pos as Hr.
  unfold draw_position, image, srcRatio, dstRatio.
  cbn [ImageSource.width ImageSource.height JS.toNumber].
  rewrite !(div_fin sw sh), !(div_fin tw th) by (apply Qpos_neq0; assumption).
  destruct mode; cbn [fitMode_eqb JS.gt JS.mul JS.sub];
    try reflexivity;
    destruct (JS.Qlt_bool (tw / th) (sw / sh));
    rewrite ?(div_fin tw (sw / sh)) by (apply Qpos_neq0; assumption);
    cbn [JS.sub];
    rewrite div_fin by (intros E; discriminate E);
    reflexivity.
Qed.

End Placement.

(** ** Contain *)

(** C4, counterexample: a 2000 x 1000 source in a 4000 x 2000 target has the
    target's ratio; Contain then draws it at 4000 x 2000, so the width and
    the height both equal the target's, not exactly one of them. *)
Lemma contain_tie_meets_both :
  let p := draw_position (image 2000 1000) CONTAIN 4000 2000 in
  JS.eqv (Rect.drawW p) 4000
  /\ JS.eqv (Rect.drawH p) 2000
  /\ ~ exactly_one (JS.eqv (Rect.drawW p) 4000) (JS.eqv (Rect.drawH p) 2000).
Proof.
  assert (Hw : JS.eqv (Rect.drawW (draw_position (image 2000 1000) CONTAIN 4000 2000)) 4000)
    by reflexivity.
  assert (Hh : JS.eqv (Rect.drawH (draw_position (image 2000 1000) CONTAIN 4000 2000)) 2000)
    by reflexivity.
  split; [exact Hw |]. split; [exact Hh |].
  intros [[_ H] | [H _]]; contradiction.
Qed.

(** C4, amended: within floating tolerance, that is for the unrounded
    values of which the code's doubles are the roundings: for strictly
    positive source and target dimensions the Contain rectangle lies within
    the target (drawW <= targetW, drawH <= targetH), at least one of drawW
    == targetW, drawH == targetH holds, both hold exactly when the source
    and target ratios are equal and exactly one holds otherwise; it is
    centred (offsetX == (targetW - drawW)/2, offsetY == (targetH -
    drawH)/2); and when srcRatio <= dstRatio, the tie included, the
    height-bound branch is taken. *)
Theorem contain_placement (sw sh tw th : Q) :
  0 < sw -> 0 < sh -> 0 < tw -> 0 < th ->
  exists x y w h : Q,
    draw_position (image sw sh) CONTAIN tw th = Rect.mk x y w h
    /\ w <= tw /\ h <= th
    /\ (w == tw \/ h == th)
    /\ (w == tw /\ h == th <-> sw / sh == tw / th)
    /\ (~ sw / sh == tw / th -> exactly_one (w == tw) (h == th))
    /\ x == (tw - w) / 2 /\ y == (th - h) / 2
    /\ (sw / sh <= tw / th ->
        draw_position (image sw sh) CONTAIN tw th
        = Rect.mk ((tw - th * (sw / sh)) / 2) 0 (th * (sw / sh)) th).
Proof.
  intros Hsw Hsh Htw Hth.
  pose proof (srcRatio_pos sw sh Hsw Hsh) as Hr.
  rewrite (draw_position_fin sw sh tw th Hsw Hsh Hth CONTAIN).
  destruct (JS.Qlt_bool (tw / th) (sw / sh)) eqn:E.
  - apply Qlt_bool_iff in E.
    assert (Hlt : tw / (sw / sh) < th).
    { apply Qnot_le_lt. intros H.
      apply (width_bound_ge (sw / sh) tw th Hr Hth) in H. lra. }
    assert (Hne : ~ sw / sh == tw / th) by lra.
    exists 0, ((th - tw / (sw / sh)) / 2), tw, (tw / (sw / sh)).
    split; [reflexivity |].
    split; [lra |]. split; [lra |].
    split; [left; reflexivity |].
    split; [split; [intros [_ H]; lra | intros H; contradiction] |].
    split; [intros _; left; split; [reflexivity | lra] |].
    split; [field |]. split; [reflexivity |].
    intros H. lra.
  - assert (Hle : sw / sh <= tw / th).
    { apply Qnot_lt_le. intros H. apply Qlt_bool_iff in H. congruence. }
    pose proof (proj2 (height_bound_le (sw / sh) tw th Hth) Hle) as Hw.
    pose proof (height_bound_eq (sw / sh) tw th Hth) as Heq.
    exists ((tw - th * (sw / sh)) / 2), 0, (th * (sw / sh)), th.
    split; [reflexivity |].
    split; [exact Hw |]. split; [lra |].
    split; [right; reflexivity |].
    split; [split; [intros [H _]; apply Heq; exact H
                   | intros H; split; [apply Heq; exact H | reflexivity]] |].
    split; [intros Hne; right; split;
              [intros H; apply Hne, Heq; exact H | reflexivity] |].
    split; [reflexivity |]. split; [field |].
    intros _. reflexivity.
Qed.

Lemma contain_placement_witness :
  exists x y w h : Q,
    draw_position (image 4000 2000) CONTAIN 3840 2160 = Rect.mk x y w h
    /\ w <= 3840 /\ h <= 2160
    /\ (w == 3840 \/ h == 2160)
    /\ (w == 3840 /\ h == 2160 <-> 4000 / 2000 == 3840 / 2160)
    /\ (~ 4000 / 2000 == 3840 / 2160 -> exactly_one (w == 3840) (h == 2160))
    /\ x == (3840 - w) / 2 /\ y == (2160 - h) / 2
    /\ (4000 / 2000 <= 3840 / 2160 ->
        draw_position (image 4000 2000) CONTAIN 3840 2160
        = Rect.mk ((3840 - 2160 * (4000 / 2000)) / 2) 0 (2160 * (4000 / 2000)) 2160).
Proof.
  apply (contain_placement 4000 2000 3840 2160); reflexivity.
Defined.

(** The specification's example: 4000 x 2000 into 3840 x 2160, Contain. *)
Example contain_example :
  let p := draw_position (image 4000 2000) CONTAIN 3840 2160 in
  JS.eqv (Rect.drawX p) 0 /\ JS.eqv (Rect.drawY p) 120
  /\ JS.eqv (Rect.drawW p) 3840 /\ JS.eqv (Rect.drawH p) 1920.
Proof. repeat split. Qed.

(** ** Cover *)

(** C5, counterexample: with equal ratios Cover too draws the source at
    exactly the target size, so both equalities hold, not exactly one. *)
Lemma cover_tie_meets_both :
  let p := draw_position (image 2000 1000) COVER 4000 2000 in
  JS.eqv (Rect.drawW p) 4000
  /\ JS.eqv (Rect.drawH p) 2000
  /\ ~ exactly_one (JS.eqv (Rect.drawW p) 4000) (JS.eqv (Rect.drawH p) 2000).
Proof.
  assert (Hw : JS.eqv (Rect.drawW (draw_position (image 2000 1000) COVER 4000 2000)) 4000)
    by reflexivity.
  assert (Hh : JS.eqv (Rect.drawH (draw_position (image 2000 1000) COVER 4000 2000)) 2000)
    by reflexivity.
  split; [exact Hw |]. split; [exact Hh |].
  intros [[_ H] | [H _]]; contradiction.
Qed.

(** C5, amended: within floating tolerance, that is for the unrounded
    values of which the code's doubles are the roundings: for strictly
    positive source and target dimensions the Cover rectangle has drawW >=
    targetW and drawH >= targetH, at least one of drawW == targetW, drawH ==
    targetH holds, both hold exactly when the source and target ratios are
    equal and exactly one holds otherwise; it is centred (offsetX ==
    (targetW - drawW)/2, offsetY == (targetH - drawH)/2); and it contains
    the whole target frame, so that whatever exceeds the target lies outside
    the canvas. *)
Theorem cover_placement (sw sh tw th : Q) :
  0 < sw -> 0 < sh -> 0 < tw -> 0 < th ->
  exists x y w h : Q,
    draw_position (image sw sh) COVER tw th = Rect.mk x y w h
    /\ tw <= w /\ th <= h
    /\ (w == tw \/ h == th)
    /\ (w == tw /\ h == th <-> sw / sh == tw / th)
    /\ (~ sw / sh == tw / th -> exactly_one (w == tw) (h == th))
    /\ x == (tw - w) / 2 /\ y == (th - h) / 2
    /\ x <= 0 /\ y <= 0 /\ tw <= x + w /\ th <= y + h.
Proof.
  intros Hsw Hsh Htw Hth.
  pose proof (srcRatio_pos sw sh Hsw Hsh) as Hr.
  rewrite (draw_position_fin sw sh tw th Hsw Hsh Hth COVER).
  destruct (JS.Qlt_bool (tw / th) (sw / sh)) eqn:E.
  - apply Qlt_bool_iff in E.
    assert (Hlt : tw < th * (sw / sh)).
    { apply Qnot_le_lt. intros H.
      apply (height_bound_le (sw / sh) tw th Hth) in H. lra. }
    assert (Hne : ~ sw / sh == tw / th) by lra.
    exists ((tw - th * (sw / sh)) / 2), 0, (th * (sw / sh)), th.
    split; [reflexivity |].
    split; [lra |]. split; [lra |].
    split; [right; reflexivity |].
    split; [split; [intros [H _]; lra | intros H; contradiction] |].
    split; [intros _; right; split; [lra | reflexivity] |].
    split; [reflexivity |]. split; [field |].
    pose proof (Qhalf (tw - th * (sw / sh))) as Hx.
    repeat split; lra.
  - assert (Hle : sw / sh <= tw / th).
    { apply Qnot_lt_le. intros H. apply Qlt_bool_iff in H. congruence. }
    pose proof (proj2 (width_bound_ge (sw / sh) tw th Hr Hth) Hle) as Hh.
    pose proof (width_bound_eq (sw / sh) tw th Hr Hth) as Heq.
    exists 0, ((th - tw / (sw / sh)) / 2), tw, (tw / (sw / sh)).
    split; [reflexivity |].
    split; [lra |]. split; [exact Hh |].
    split; [left; reflexivity |].
    split; [split; [intros [_ H]; apply Heq; exact H
                   | intros H; split; [reflexivity | apply Heq; exact H]] |].
    split; [intros Hne; left; split;
              [reflexivity | intros H; apply Hne, Heq; exact H] |].
    split; [field |]. split; [reflexivity |].
    pose proof (Qhalf (th - tw / (sw / sh))) as Hy.
    repeat split; lra.
Qed.

Lemma cover_placement_witness :
  exists x y w h : Q,
    draw_position (image 4000 2000) COVER 3840 2160 = Rect.mk x y w h
    /\ 3840 <= w /\ 2160 <= h
    /\ (w == 3840 \/ h == 2160)
    /\ (w == 3840 /\ h == 2160 <-> 4000 / 2000 == 3840 / 2160)
    /\ (~ 4000 / 2000 == 3840 / 2160 -> exactly_one (w == 3840) (h == 2160))
    /\ x == (3840 - w) / 2 /\ y == (2160 - h) / 2
    /\ x <= 0 /\ y <= 0 /\ 3840 <= x + w /\ 2160 <= y + h.
Proof.
  apply (cover_placement 4000 2000 3840 2160); reflexivity.
Defined.

(** The specification's example: 4000 x 2000 into 3840 x 2160, Cover. *)
Example cover_example :
  let p := draw_position (image 4000 2000) COVER 3840 2160 in
  JS.eqv (Rect.drawX p) (-240) /\ JS.eqv (Rect.drawY p) 0
  /\ JS.eqv (Rect.drawW p) 4320 /\ JS.eqv (Rect.drawH p) 2160.
Proof. repeat split. Qed.

(** ** Aspect ratio *)

(** C6: for strictly positive source and target dimensions, Contain and
    Cover draw with drawW / drawH equal to srcW / srcH, and Stretch draws
    with that ratio exactly when the source and target ratios coincide. *)
Theorem aspect_ratio_preserved (sw sh tw th : Q) :
  0 < sw -> 0 < sh -> 0 < tw -> 0 < th ->
  (forall mode, mode = CONTAIN \/ mode = COVER ->
     exists w h : Q,
       Rect.drawW (draw_position (image sw sh) mode tw th) = JS.Fin w
       /\ Rect.drawH (draw_position (image sw sh) mode tw th) = JS.Fin h
       /\ 0 < h /\ w / h == sw / sh)
  /\ (exists w h : Q,
       Rect.drawW (draw_position (image sw sh) STRETCH tw th) = JS.Fin w
       /\ Rect.drawH (draw_position (image sw sh) STRETCH tw th) = JS.Fin h
       /\ 0 < h /\ (w / h == sw / sh <-> sw / sh == tw / th)).
Proof.
  intros Hsw Hsh Htw Hth.
  pose proof (srcRatio_pos sw sh Hsw Hsh) as Hr.
  assert (Hwide : exists w h : Q,
            Rect.mk 0 ((th - tw / (sw / sh)) / 2) tw (tw / (sw / sh))
              = Rect.mk 0 ((th - tw / (sw / sh)) / 2) w h
            /\ 0 < h /\ w / h == sw / sh).
  { exists tw, (tw / (sw / sh)). split; [reflexivity |].
    split; [apply Qdiv_pos; assumption |].
    apply width_bound_ratio; assumption. }
  assert (Htall : exists w h : Q,
            Rect.mk ((tw - th * (sw / sh)) / 2) 0 (th * (sw / sh)) th
              = Rect.mk ((tw - th * (sw / sh)) / 2) 0 w h
            /\ 0 < h /\ w / h == sw / sh).
  { exists (th * (sw / sh)), th. split; [reflexivity |].
    split; [assumption |]. apply height_bound_ratio; assumption. }
  split.
  - intros mode Hmode.
    rewrite (draw_position_fin sw sh tw th Hsw Hsh Hth mode).
    destruct Hmode as [-> | ->];
      destruct (JS.Qlt_bool (tw / th) (sw / sh));
      [ destruct Hwide as (w & h & E & H) | destruct Htall as (w & h & E & H)
      | destruct Htall as (w & h & E & H) | destruct Hwide as (w & h & E & H) ];
      exists w, h; rewrite E; simpl; tauto.
  - exists tw, th. rewrite draw_position_stretch. simpl.
    split; [reflexivity |]. split; [reflexivity |]. split; [assumption |].
    split; intros H; rewrite H; reflexivity.
Qed.

Lemma aspect_ratio_preserved_witness :
  (forall mode, mode = CONTAIN \/ mode = COVER ->
     exists w h : Q,
       Rect.drawW (draw_position (image 4000 2000) mode 3840 2160) = JS.Fin w
       /\ Rect.drawH (draw_position (image 4000 2000) mode 3840 2160) = JS.Fin h
       /\ 0 < h /\ w / h == 4000 / 2000)
  /\ (exists w h : Q,
       Rect.drawW (draw_position (image 4000 2000) STRETCH 3840 2160) = JS.Fin w
       /\ Rect.drawH (draw_position (image 4000 2000) STRETCH 3840 2160) = JS.Fin h
       /\ 0 < h /\ (w / h == 4000 / 2000 <-> 4000 / 2000 == 3840 / 2160)).
Proof.
  apply (aspect_ratio_preserved 4000 2000 3840 2160); reflexivity.
Defined.

(** Stretch changes the ratio of a 4000 x 2000 source drawn into 3840 x 2160. *)
Example stretch_distorts :
  let p := draw_position (image 4000 2000) STRETCH 3840 2160 in
  Rect.drawW p = JS.Fin 3840 /\ Rect.drawH p = JS.Fin 2160
  /\ ~ 3840 / 2160 == 4000 / 2000.
Proof. repeat split. intros H. discriminate H. Qed.

(** ** Stretch *)

(** C7: in Stretch mode the draw position is (0, 0, targetW, targetH) for
    every source image and every target size, the source's dimensions play
    no part, and that is the rectangle [renderToCanvas] passes to
    [drawImage]. *)
Theorem stretch_fills_target (B : Browser) (img : ImageSource.t)
    (s : ProcessingSettings.t) :
  (forall (any : ImageSource.t) (tw th : JS.number),
     draw_position any STRETCH tw th = Rect.mk 0 0 tw th)
  /\ (ProcessingSettings.fitMode s = STRETCH ->
      getContext2d B = true ->
      exists c background,
        composited B img s = Resolved c
        /\ Canvas.ops c =
             [background;
              DrawImage img 0 0 (fst (target_dimensions img s))
                (snd (target_dimensions img s))]).
Proof.
  split.
  - intros any tw th. apply draw_position_stretch.
  - intros Hmode Hctx.
    pose proof (composited_canvas B img s Hctx) as E. simpl in E.
    rewrite Hmode, draw_position_stretch in E. simpl in E.
    eexists. eexists. split; [exact E |]. reflexivity.
Qed.

Lemma stretch_fills_target_witness :
  exists c background,
    composited sample_browser (image 640 480)
      (ProcessingSettings.mk HD_720 0 0 PNG 1 STRETCH true "transparent")
      = Resolved c
    /\ Canvas.ops c =
         [background; DrawImage (image 640 480) 0 0 (JS.Fin 1280) (JS.Fin 720)].
Proof.
  apply (proj2 (stretch_fills_target sample_browser (image 640 480)
           (ProcessingSettings.mk HD_720 0 0 PNG 1 STRETCH true "transparent")));
    reflexivity.
Defined.

(** ** The derived file name *)

Lemma split_dot_nonempty (s : string) : split_dot s <> [].
Proof.
  destruct s as [| c r]; simpl; [discriminate |].
  destruct (Ascii.eqb c "."); [discriminate |].
  destruct (split_dot r); discriminate.
Qed.

Lemma split_dot_app (b e : string) :
  split_dot (b ++ "." ++ e) = (split_dot b ++ split_dot e)%list.
Proof.
  induction b as [| c b IH]; simpl in *.
  - reflexivity.
  - destruct (Ascii.eqb c ".").
    + rewrite IH. reflexivity.
    + rewrite IH.
      pose proof (split_dot_nonempty b) as Hne.
      destruct (split_dot b) as [| h t]; [contradiction | reflexivity].
Qed.

Lemma split_dot_no_dot (e : string) : has_dot e = false -> split_dot e = [e].
Proof.
  induction e as [| c e IH]; simpl; [reflexivity |].
  intros H. apply orb_false_iff in H. destruct H as [Hc He].
  rewrite Hc, (IH He). reflexivity.
Qed.

Lemma join_split_dot (s : string) : join_dot (split_dot s) = s.
Proof.
  induction s as [| c s IH]; simpl; [reflexivity |].
  destruct (Ascii.eqb c ".") eqn:Ec.
  - apply Ascii.eqb_eq in Ec. subst c.
    pose proof (split_dot_nonempty s) as Hne.
    destruct (split_dot s) as [| h t]; [contradiction |].
    simpl in *. rewrite IH. reflexivity.
  - pose proof (split_dot_nonempty s) as Hne.
    destruct (split_dot s) as [| h t]; [contradiction |].
    destruct t as [| h' t]; simpl in *; rewrite <- IH; reflexivity.
Qed.

(** A name without a full stop is its own base name. *)
Lemma baseName_no_dot (name : string) : has_dot name = false -> baseName name = name.
Proof.
  intros H. unfold baseName. rewrite (split_dot_no_dot name H). reflexivity.
Qed.

(** The base name drops the last full stop and what follows it. *)
Lemma baseName_strips (base extension : string) :
  has_dot extension = false -> baseName (base ++ "." ++ extension) = base.
Proof.
  intros H. unfold baseName.
  rewrite split_dot_app, (split_dot_no_dot extension H).
  pose proof (split_dot_nonempty base) as Hne.
  assert (Hlen : (1 <? List.length (split_dot base ++ [extension]))%nat = true).
  { apply Nat.ltb_lt. rewrite length_app. simpl.
    destruct (split_dot base); [contradiction | simpl; lia]. }
  rewrite Hlen, removelast_last. apply join_split_dot.
Qed.

Lemma toString_integer (rest : Q -> string) (z : Z) :
  (Z.abs z < 10 ^ 21)%Z ->
  JS.toString rest (JS.Fin (inject_Z z)) = NilZero.string_of_int (Z.to_int z).
Proof.
  intros H. unfold JS.toString.
  assert (E : Qred (inject_Z z) = inject_Z z).
  { apply Qcanon.Qred_identity. simpl. apply Z.gcd_1_r. }
  rewrite E. simpl Qden. simpl Qnum.
  apply Z.ltb_lt in H. rewrite H. reflexivity.
Qed.

Lemma ext_canonical (f : OutputFormat) :
  ext f = match f with JPEG => "jpg" | PNG => "png" | WEBP => "webp" end.
Proof. destruct f; reflexivity. Qed.

(** The preset labels with their white space removed. *)
Example labels_without_spaces :
  map (fun p => remove_spaces (preset_label p)) [UHD_4K; QHD_2K; FHD_1080; HD_720; CUSTOM]
  = ["4KUHD"; "2KQHD"; "1080pFHD"; "720pHD"; "Custom"].
Proof. reflexivity. Qed.

(** C9: the file name is the original name without its last extension,
    then [_{targetWidth}x{targetHeight}_], the preset label without spaces,
    a full stop and the format's extension (jpg, png or webp); a name with
    no extension is kept whole; integer dimensions below 2^53 in magnitude,
    those a double holds exactly, print in decimal; the name depends on the
    settings through the preset and the format only; and it is the name
    [renderToCanvas] returns, for the target dimensions it resolved. *)
Theorem filename_derivation (B : Browser) (base extension : string)
    (s : ProcessingSettings.t) (tw th : JS.number) :
  let suffix :=
    "_" ++ JS.toString (numberToString B) tw
        ++ "x" ++ JS.toString (numberToString B) th
        ++ "_" ++ remove_spaces (preset_label (ProcessingSettings.preset s))
        ++ "."
        ++ match ProcessingSettings.format s with
           | JPEG => "jpg" | PNG => "png" | WEBP => "webp"
           end in
  (has_dot extension = false ->
   generate_filename B (base ++ "." ++ extension) s tw th = base ++ suffix
   /\ generate_filename B extension s tw th = extension ++ suffix)
  /\ (forall z : Z, (Z.abs z < 2 ^ 53)%Z ->
        JS.toString (numberToString B) (JS.Fin (inject_Z z))
        = NilZero.string_of_int (Z.to_int z))
  /\ (forall s' name,
        ProcessingSettings.preset s' = ProcessingSettings.preset s ->
        ProcessingSettings.format s' = ProcessingSettings.format s ->
        generate_filename B name s' tw th = generate_filename B name s tw th)
  /\ (forall img name, getContext2d B = true -> encoder_total B ->
        exists p, renderToCanvas B img name s = Resolved p
          /\ ProcessedImage.filename p
             = generate_filename B name s (fst (target_dimensions img s))
                 (snd (target_dimensions img s))).
Proof.
  intros suffix.
  assert (Hgen : forall name,
            generate_filename B name s tw th = baseName name ++ suffix).
  { intros name. unfold generate_filename, suffix.
    rewrite ext_canonical. reflexivity. }
  split.
  { intros Hext. rewrite !Hgen, (baseName_strips base extension Hext),
      (baseName_no_dot extension Hext). split; reflexivity. }
  split.
  { intros z Hz. apply toString_integer.
    assert (Hb : (2 ^ 53 < 10 ^ 21)%Z) by reflexivity. lia. }
  split.
  - intros s' name Hp Hf. unfold generate_filename. rewrite Hp, Hf. reflexivity.
  - intros img name Hctx Henc.
    destruct (renderToCanvas_resolves B img name s Hctx Henc) as [blob E].
    eexists. split; [exact E | reflexivity].
Qed.

Lemma filename_derivation_witness :
  generate_filename sample_browser "photo.png"
    (ProcessingSettings.mk FHD_1080 1920 1080 JPEG (9 # 10) CONTAIN true "#000000")
    1920 1080
  = "photo_1920x1080_1080pFHD.jpg".
Proof.
  exact (proj1 (proj1 (filename_derivation sample_browser "photo" "png"
    (ProcessingSettings.mk FHD_1080 1920 1080 JPEG (9 # 10) CONTAIN true "#000000")
    1920 1080) eq_refl)).
Defined.

(** Only the last extension is removed; a leading full stop counts as one. *)
Example baseName_examples :
  map baseName ["photo.png"; "archive.tar.gz"; "README"; ".bashrc"; "scan."]
  = ["photo"; "archive.tar"; "README"; ""; "scan"].
Proof. reflexivity. Qed.

(** ** The background *)

(** A background other than "transparent" is painted over the whole target
    frame, as given, before the image is drawn. *)
Lemma background_painted (B : Browser) (img : ImageSource.t)
    (s : ProcessingSettings.t) :
  getContext2d B = true ->
  ProcessingSettings.backgroundColor s <> "transparent" ->
  exists c x y w h,
    composited B img s = Resolved c
    /\ Canvas.ops c =
         [FillRect (ProcessingSettings.backgroundColor s) 0 0
            (fst (target_dimensions img s)) (snd (target_dimensions img s));
          DrawImage img x y w h].
Proof.
  intros Hctx Hbg. pose proof (composited_canvas B img s Hctx) as E. simpl in E.
  apply String.eqb_neq in Hbg. rewrite Hbg, andb_false_r in E. simpl in E.
  do 5 eexists. split; [exact E | reflexivity].
Qed.

(** A "transparent" background leaves the frame cleared, whatever the
    format: nothing is painted before the image is drawn. *)
Lemma background_cleared (B : Browser) (img : ImageSource.t)
    (s : ProcessingSettings.t) :
  getContext2d B = true ->
  ProcessingSettings.backgroundColor s = "transparent" ->
  exists c x y w h,
    composited B img s = Resolved c
    /\ Canvas.ops c =
         [ClearRect 0 0 (fst (target_dimensions img s)) (snd (target_dimensions img s));
          DrawImage img x y w h]
    /\ existsb is_fill (Canvas.ops c) = false.
Proof.
  intros Hctx Hbg. pose proof (composited_canvas B img s Hctx) as E. simpl in E.
  rewrite Hbg in E. simpl in E.
  do 5 eexists. split; [exact E |]. split; reflexivity.
Qed.

(** C2, the failing input: format JPEG with background "transparent".  The
    fill style is set to black, but the frame is cleared, not filled: no
    operation paints the black before the image is drawn. *)
Theorem transparent_jpeg_not_filled :
  forall (img : ImageSource.t) (p : ResolutionPreset) (w h q : JS.number)
         (m : FitMode) (k : bool),
    let s := ProcessingSettings.mk p w h JPEG q m k "transparent" in
    let tw := fst (target_dimensions img s) in
    let th := snd (target_dimensions img s) in
    let r := draw_position img m tw th in
    composited sample_browser img s =
      Resolved (Canvas.mk (canvas_dimension 300 tw) (canvas_dimension 150 th)
                  "#000000" true "high"
        [ClearRect 0 0 tw th;
         DrawImage img (Rect.drawX r) (Rect.drawY r) (Rect.drawW r) (Rect.drawH r)])
    /\ match composited sample_browser img s with
       | Resolved c =>
           Canvas.fillStyle c = "#000000"
           /\ existsb is_fill (Canvas.ops c) = false
       | Rejected _ => False
       end.
Proof.
  intros img p w h q m k s tw th r.
  pose proof (composited_canvas sample_browser img s eq_refl) as E.
  split; [exact E |].
  rewrite E. split; reflexivity.
Qed.

(** The same input on the defaults of the application: a 4000 x 2000 source,
    4K UHD, Contain. *)
Example transparent_jpeg_default :
  composited sample_browser (image 4000 2000)
    (ProcessingSettings.mk UHD_4K 3840 2160 JPEG (9 # 10) CONTAIN true "transparent")
  = Resolved (Canvas.mk 3840 2160 "#000000" true "high"
      [ClearRect 0 0 3840 2160;
       DrawImage (image 4000 2000) 0 ((2160 - 3840 / (4000 / 2000)) / 2)
         3840 (3840 / (4000 / 2000))]).
Proof. reflexivity. Qed.

(** * Further properties of the code *)

(** ** The fit modes as uniform scalings *)

Lemma Qlt_div_iff (a b c : Q) : 0 < c -> (a < b / c <-> a * c < b).
Proof.
  intros Hc. rewrite <- (Qmult_lt_r a (b / c) c Hc).
  rewrite (Qdiv_mul_cancel b c Hc). reflexivity.
Qed.

(** The source is relatively wider than the target exactly when the
    horizontal scale is the smaller one. *)
Lemma ratio_order (sw sh tw th : Q) :
  0 < sw -> 0 < sh -> 0 < tw -> 0 < th ->
  (tw / th < sw / sh <-> tw / sw < th / sh).
Proof.
  intros Hsw Hsh Htw Hth.
  rewrite (Qdiv_lt_iff tw th (sw / sh) Hth), (Qdiv_lt_iff tw sw (th / sh) Hsw).
  assert (E1 : sw / sh * th == sw * th / sh) by (field; apply Qpos_neq0; assumption).
  assert (E2 : th / sh * sw == sw * th / sh) by (field; apply Qpos_neq0; assumption).
  rewrite E1, E2. reflexivity.
Qed.

(** X1: on strictly positive dimensions Contain draws the source scaled in
    both directions by the smaller of targetW/srcW and targetH/srcH, and
    Cover by the larger of the two. *)
Theorem fit_modes_scale_uniformly (sw sh tw th : Q) :
  0 < sw -> 0 < sh -> 0 < tw -> 0 < th ->
  let contain := draw_position (image sw sh) CONTAIN tw th in
  let cover := draw_position (image sw sh) COVER tw th in
  JS.eqv (Rect.drawW contain) (JS.Fin (sw * Qmin (tw / sw) (th / sh)))
  /\ JS.eqv (Rect.drawH contain) (JS.Fin (sh * Qmin (tw / sw) (th / sh)))
  /\ JS.eqv (Rect.drawW cover) (JS.Fin (sw * Qmax (tw / sw) (th / sh)))
  /\ JS.eqv (Rect.drawH cover) (JS.Fin (sh * Qmax (tw / sw) (th / sh))).
Proof.
  intros Hsw Hsh Htw Hth contain cover. subst contain cover.
  pose proof (Qpos_neq0 sw Hsw) as Nsw. pose proof (Qpos_neq0 sh Hsh) as Nsh.
  rewrite !(draw_position_fin sw sh tw th Hsw Hsh Hth).
  destruct (JS.Qlt_bool (tw / th) (sw / sh)) eqn:E; simpl.
  - apply Qlt_bool_iff, (ratio_order sw sh tw th Hsw Hsh Htw Hth) in E.
    rewrite (Q.min_l (tw / sw) (th / sh)) by (apply Qlt_le_weak; exact E).
    rewrite (Q.max_r (tw / sw) (th / sh)) by (apply Qlt_le_weak; exact E).
    repeat split; field; auto.
  - assert (Hle : th / sh <= tw / sw).
    { apply Qnot_lt_le. intros H.
      apply (ratio_order sw sh tw th Hsw Hsh Htw Hth), Qlt_bool_iff in H.
      congruence. }
    rewrite (Q.min_r (tw / sw) (th / sh)) by exact Hle.
    rewrite (Q.max_l (tw / sw) (th / sh)) by exact Hle.
    repeat split; field; auto.
Qed.

Lemma fit_modes_scale_uniformly_witness :
  JS.eqv (Rect.drawW (draw_position (image 4000 2000) CONTAIN 3840 2160))
         (JS.Fin (4000 * Qmin (3840 / 4000) (2160 / 2000)))
  /\ JS.eqv (Rect.drawH (draw_position (image 4000 2000) CONTAIN 3840 2160))
            (JS.Fin (2000 * Qmin (3840 / 4000) (2160 / 2000)))
  /\ JS.eqv (Rect.drawW (draw_position (image 4000 2000) COVER 3840 2160))
            (JS.Fin (4000 * Qmax (3840 / 4000) (2160 / 2000)))
  /\ JS.eqv (Rect.drawH (draw_position (image 4000 2000) COVER 3840 2160))
            (JS.Fin (2000 * Qmax (3840 / 4000) (2160 / 2000))).
Proof.
  apply (fit_modes_scale_uniformly 4000 2000 3840 2160); reflexivity.
Defined.

(** X2: in exact arithmetic, that is up to the rounding of the code's
    doubles: on strictly positive dimensions the Contain rectangle is not
    empty and lies inside the target frame, so nothing of the source is
    cropped, and the bars left on the two sides of an axis are equal. *)
Theorem contain_never_crops (sw sh tw th : Q) :
  0 < sw -> 0 < sh -> 0 < tw -> 0 < th ->
  exists x y w h : Q,
    draw_position (image sw sh) CONTAIN tw th = Rect.mk x y w h
    /\ 0 < w /\ 0 < h
    /\ 0 <= x /\ 0 <= y /\ x + w <= tw /\ y + h <= th
    /\ tw - (x + w) == x /\ th - (y + h) == y.
Proof.
  intros Hsw Hsh Htw Hth.
  pose proof (srcRatio_pos sw sh Hsw Hsh) as Hr.
  rewrite (draw_position_fin sw sh tw th Hsw Hsh Hth CONTAIN).
  destruct (JS.Qlt_bool (tw / th) (sw / sh)) eqn:E.
  - apply Qlt_bool_iff in E.
    pose proof (proj2 (width_bound_le (sw / sh) tw th Hr Hth) (Qlt_le_weak _ _ E)) as Hh.
    pose proof (Qdiv_pos tw (sw / sh) Htw Hr) as Hpos.
    pose proof (Qhalf (th - tw / (sw / sh))) as Hy.
    exists 0, ((th - tw / (sw / sh)) / 2), tw, (tw / (sw / sh)).
    split; [reflexivity |]. repeat split; lra.
  - assert (Hle : sw / sh <= tw / th).
    { apply Qnot_lt_le. intros H. apply Qlt_bool_iff in H. congruence. }
    pose proof (proj2 (height_bound_le (sw / sh) tw th Hth) Hle) as Hw.
    assert (Hpos : 0 < th * (sw / sh)) by (apply Qmult_lt_0_compat; assumption).
    pose proof (Qhalf (tw - th * (sw / sh))) as Hx.
    exists ((tw - th * (sw / sh)) / 2), 0, (th * (sw / sh)), th.
    split; [reflexivity |]. repeat split; lra.
Qed.

Lemma contain_never_crops_witness :
  exists x y w h : Q,
    draw_position (image 4000 2000) CONTAIN 3840 2160 = Rect.mk x y w h
    /\ 0 < w /\ 0 < h
    /\ 0 <= x /\ 0 <= y /\ x + w <= 3840 /\ y + h <= 2160
    /\ 3840 - (x + w) == x /\ 2160 - (y + h) == y.
Proof.
  apply (contain_never_crops 4000 2000 3840 2160); reflexivity.
Defined.

(** ** Symmetries of the draw position *)

Lemma Qlt_bool_comp (a a' b b' : Q) :
  a == a' -> b == b' -> JS.Qlt_bool a b = JS.Qlt_bool a' b'.
Proof.
  intros Ha Hb. unfold JS.Qlt_bool. f_equal. apply Qleb_comp; assumption.
Qed.

(** X3: in exact arithmetic, that is up to the rounding of the code's
    doubles: multiplying both target dimensions by a factor k > 0 multiplies
    the whole rectangle, offsets and size, by k, in every fit mode. *)
Theorem placement_scales_with_target (sw sh tw th k : Q) (mode : FitMode) :
  0 < sw -> 0 < sh -> 0 < tw -> 0 < th -> 0 < k ->
  rect_eqv (draw_position (image sw sh) mode (JS.Fin (k * tw)) (JS.Fin (k * th)))
           (rect_scale (JS.Fin k) (draw_position (image sw sh) mode tw th)).
Proof.
  intros Hsw Hsh Htw Hth Hk.
  pose proof (Qpos_neq0 sw Hsw) as Nsw. pose proof (Qpos_neq0 sh Hsh) as Nsh.
  pose proof (Qpos_neq0 th Hth) as Nth. pose proof (Qpos_neq0 k Hk) as Nk.
  assert (Hkth : 0 < k * th) by (apply Qmult_lt_0_compat; assumption).
  rewrite (draw_position_fin sw sh (k * tw) (k * th) Hsw Hsh Hkth).
  rewrite (draw_position_fin sw sh tw th Hsw Hsh Hth).
  assert (E : JS.Qlt_bool (k * tw / (k * th)) (sw / sh)
              = JS.Qlt_bool (tw / th) (sw / sh)).
  { apply Qlt_bool_comp; [field; auto | reflexivity]. }
  simpl. rewrite E.
  destruct mode; try destruct (JS.Qlt_bool (tw / th) (sw / sh));
    unfold rect_eqv, rect_scale; simpl; repeat split; field; auto.
Qed.

Lemma placement_scales_with_target_witness :
  rect_eqv (draw_position (image 4000 2000) CONTAIN (JS.Fin (2 * 1920)) (JS.Fin (2 * 1080)))
           (rect_scale (JS.Fin 2) (draw_position (image 4000 2000) CONTAIN 1920 1080)).
Proof.
  apply (placement_scales_with_target 4000 2000 1920 1080 2 CONTAIN); reflexivity.
Defined.

(** X4: the rectangle depends on the source through its aspect ratio only:
    two sources of equal ratio are drawn at the same place and size. *)
Theorem placement_depends_on_ratio_only (sw sh sw' sh' tw th : Q) (mode : FitMode) :
  0 < sw -> 0 < sh -> 0 < sw' -> 0 < sh' -> 0 < tw -> 0 < th ->
  sw / sh == sw' / sh' ->
  rect_eqv (draw_position (image sw sh) mode tw th)
           (draw_position (image sw' sh') mode tw th).
Proof.
  intros Hsw Hsh Hsw' Hsh' Htw Hth Hr.
  rewrite (draw_position_fin sw sh tw th Hsw Hsh Hth).
  rewrite (draw_position_fin sw' sh' tw th Hsw' Hsh' Hth).
  simpl.
  rewrite (Qlt_bool_comp (tw / th) (tw / th) (sw / sh) (sw' / sh')
             (Qeq_refl _) Hr).
  destruct mode; try destruct (JS.Qlt_bool (tw / th) (sw' / sh'));
    unfold rect_eqv; simpl; repeat split; rewrite ?Hr; reflexivity.
Qed.

Lemma placement_depends_on_ratio_only_witness :
  rect_eqv (draw_position (image 4000 2000) COVER 3840 2160)
           (draw_position (image 200 100) COVER 3840 2160).
Proof.
  apply (placement_depends_on_ratio_only 4000 2000 200 100 3840 2160 COVER);
    reflexivity.
Defined.

(** X6: a source without a width or without a height, or of size 0 x 0, has
    the ratio NaN.  Contain then takes its height-bound branch and passes a
    NaN width and a NaN horizontal offset to [drawImage]; Cover takes its
    width-bound branch and passes a NaN height and a NaN vertical offset. *)
Theorem sizeless_source_draws_nan (img : ImageSource.t) (tw th : JS.number) :
  ImageSource.width img = JS.Undefined
  \/ ImageSource.height img = JS.Undefined
  \/ (ImageSource.width img = JS.Num (JS.Fin 0)
      /\ ImageSource.height img = JS.Num (JS.Fin 0)) ->
  draw_position img CONTAIN tw th = Rect.mk JS.NaN 0 JS.NaN th
  /\ draw_position img COVER tw th = Rect.mk 0 JS.NaN tw JS.NaN.
Proof.
  intros H.
  assert (E : JS.div (JS.toNumber (ImageSource.width img))
                     (JS.toNumber (ImageSource.height img)) = JS.NaN).
  { destruct H as [H | [H | [Hw Hh]]].
    - rewrite H. reflexivity.
    - rewrite H. simpl. destruct (JS.toNumber (ImageSource.width img)); reflexivity.
    - rewrite Hw, Hh. reflexivity. }
  unfold draw_position. rewrite E. simpl.
  split; destruct tw, th; reflexivity.
Qed.

Lemma sizeless_source_draws_nan_witness :
  draw_position (ImageSource.mk JS.Undefined JS.Undefined) CONTAIN 3840 2160
    = Rect.mk JS.NaN 0 JS.NaN 2160
  /\ draw_position (ImageSource.mk JS.Undefined JS.Undefined) COVER 3840 2160
    = Rect.mk 0 JS.NaN 3840 JS.NaN.
Proof.
  apply (sizeless_source_draws_nan (ImageSource.mk JS.Undefined JS.Undefined)
           3840 2160).
  left. reflexivity.
Defined.

Lemma ratio_cross_lt (a b c d : Q) :
  0 < b -> 0 < d -> (a / b < c / d <-> a * d < c * b).
Proof.
  intros Hb Hd. rewrite (Qdiv_lt_iff a b (c / d) Hb).
  assert (E : c / d * b == c * b / d) by (field; apply Qpos_neq0; assumption).
  rewrite E. apply Qlt_div_iff. exact Hd.
Qed.

(** X5: in exact arithmetic, that is up to the rounding of the code's
    doubles: exchanging width and height in both the source and the target
    exchanges the two axes of the rectangle: the tie-breaking towards the
    height-bound branch favours neither axis. *)
Theorem placement_transposes (sw sh tw th : Q) (mode : FitMode) :
  0 < sw -> 0 < sh -> 0 < tw -> 0 < th ->
  rect_eqv (draw_position (image sh sw) mode th tw)
           (rect_transpose (draw_position (image sw sh) mode tw th)).
Proof.
  intros Hsw Hsh Htw Hth.
  pose proof (Qpos_neq0 sw Hsw) as Nsw. pose proof (Qpos_neq0 sh Hsh) as Nsh.
  rewrite (draw_position_fin sh sw th tw Hsh Hsw Htw).
  rewrite (draw_position_fin sw sh tw th Hsw Hsh Hth).
  simpl.
  destruct (JS.Qlt_bool (tw / th) (sw / sh)) eqn:E1;
    destruct (JS.Qlt_bool (th / tw) (sh / sw)) eqn:E2.
  - (* both strict: impossible *)
    apply Qlt_bool_iff, (ratio_cross_lt tw th sw sh Hth Hsh) in E1.
    apply Qlt_bool_iff, (ratio_cross_lt th tw sh sw Htw Hsw) in E2.
    exfalso. lra.
  - destruct mode; unfold rect_eqv, rect_transpose; simpl;
      repeat split; field; auto.
  - destruct mode; unfold rect_eqv, rect_transpose; simpl;
      repeat split; field; auto.
  - (* neither strict: the ratios are equal *)
    assert (Hx : tw * sh == sw * th).
    { apply Qle_antisym; apply Qnot_lt_le; intros H.
      + assert (H' : th * sw < sh * tw) by lra.
        apply (ratio_cross_lt th tw sh sw Htw Hsw), Qlt_bool_iff in H'. congruence.
      + apply (ratio_cross_lt tw th sw sh Hth Hsh), Qlt_bool_iff in H. congruence. }
    assert (Ew : th * (sw / sh) == tw).
    { assert (E : th * (sw / sh) == sw * th / sh) by (field; exact Nsh).
      rewrite E, <- Hx. field. exact Nsh. }
    assert (Eh : tw * (sh / sw) == th).
    { assert (E : tw * (sh / sw) == tw * sh / sw) by (field; exact Nsw).
      rewrite E, Hx. field. exact Nsw. }
    assert (Ew' : tw / (sw / sh) == th).
    { rewrite <- Eh. field. split; assumption. }
    assert (Eh' : th / (sh / sw) == tw).
    { rewrite <- Ew. field. split; assumption. }
    destruct mode; unfold rect_eqv, rect_transpose; simpl;
      rewrite ?Ew, ?Eh, ?Ew', ?Eh'; repeat split; try reflexivity; field.
Qed.

Lemma placement_transposes_witness :
  rect_eqv (draw_position (image 2000 4000) CONTAIN 2160 3840)
           (rect_transpose (draw_position (image 4000 2000) CONTAIN 3840 2160)).
Proof.
  apply (placement_transposes 4000 2000 3840 2160 CONTAIN); reflexivity.
Defined.

(** ** Validated settings and the size rendered *)




(** ** What [processImage] reads and how it fails *)

Lemma processImage_decoded (B : Browser) (f : File.t) (s : ProcessingSettings.t) :
  processImage B f s =
    match decoded B f with
    | Some img => renderToCanvas B img (File.name f) s
    | None => Rejected ImageLoadError
    end.
Proof.
  unfold processImage, decoded. destruct (createImageBitmap B f); reflexivity.
Qed.

(** X8: the result of [processImage] depends on the settings only through
    the preset, the format, the fit mode and the background, through the
    width and height when the preset is Custom, and through the quality
    when the format is not PNG; [keepAspectRatio] is never read. *)
Theorem processImage_reads_only (B : Browser) (f : File.t)
    (s s' : ProcessingSettings.t) :
  agree_on_what_is_read s s' ->
  processImage B f s = processImage B f s'.
Proof.
  intros (Hp & Hf & Hm & Hbg & Hdim & Hq).
  destruct s as [p w h fmt q m k bg], s' as [p' w' h' fmt' q' m' k' bg'].
  simpl in *. subst p' fmt' m' bg'.
  rewrite !processImage_decoded.
  destruct (decoded B f) as [img |]; [| reflexivity].
  destruct p; try (destruct fmt; try rewrite (Hq ltac:(discriminate)); reflexivity).
  destruct (Hdim eq_refl) as [Hw Hh]. subst w' h'.
  destruct fmt; try rewrite (Hq ltac:(discriminate)); reflexivity.
Qed.

Lemma processImage_reads_only_witness :
  processImage sample_browser sample_file
    (ProcessingSettings.mk UHD_4K 3840 2160 PNG (9 # 10) COVER true "#ffffff")
  = processImage sample_browser sample_file
    (ProcessingSettings.mk UHD_4K 17 (-4) PNG (1 # 10) COVER false "#ffffff").
Proof.
  apply (processImage_reads_only sample_browser sample_file
    (ProcessingSettings.mk UHD_4K 3840 2160 PNG (9 # 10) COVER true "#ffffff")
    (ProcessingSettings.mk UHD_4K 17 (-4) PNG (1 # 10) COVER false "#ffffff")).
  unfold agree_on_what_is_read. simpl.
  do 4 (split; [reflexivity |]).
  split; [intros E; discriminate E | intros E; exfalso; apply E; reflexivity].
Defined.

(** X9: [processImage] rejects with the image-load error exactly when both
    decoders fail, with the context error exactly when an image was decoded
    and the canvas has no 2D context, and with the blob error exactly when
    the encoder returns null for the composited canvas, called with the
    format's MIME type and the quality (none for PNG); and when
    [createImageBitmap] succeeds its bitmap is the image rendered, whatever
    the fallback loader would give. *)
Theorem processImage_failures (B : Browser) (f : File.t) (s : ProcessingSettings.t) :
  (processImage B f s = Rejected ImageLoadError <-> decoded B f = None)
  /\ (processImage B f s = Rejected CanvasContextError <->
      decoded B f <> None /\ getContext2d B = false)
  /\ (processImage B f s = Rejected CanvasToBlobError <->
      exists img c,
        decoded B f = Some img
        /\ composited B img s = Resolved c
        /\ toBlob B c (mime (ProcessingSettings.format s)) (encoder_quality s) = None)
  /\ (forall bitmap, createImageBitmap B f = Some bitmap -> decoded B f = Some bitmap).
Proof.
  rewrite processImage_decoded.
  split; [| split; [| split]].
  - destruct (decoded B f) as [img |]; [| tauto].
    split; [| discriminate].
    intros H. apply renderToCanvas_rejections in H.
    destruct H as [[E _] | [E _]]; discriminate E.
  - destruct (decoded B f) as [img |].
    + split.
      * intros H. apply renderToCanvas_rejections in H.
        destruct H as [[_ E] | [E _]]; [| discriminate E].
        split; [discriminate | exact E].
      * intros [_ H]. rewrite renderToCanvas_outcome. simpl. rewrite H. reflexivity.
    + split; [discriminate | intros [H _]; contradiction].
  - destruct (decoded B f) as [img |].
    + rewrite renderToCanvas_outcome. simpl. unfold encoder_quality.
      destruct (getContext2d B) eqn:Hctx.
      * rewrite (composited_canvas B img s Hctx). simpl.
        match goal with |- context [toBlob ?b ?c ?m ?q] =>
          destruct (toBlob b c m q) eqn:Et end.
        -- split; [discriminate |].
           intros (img' & c & Hi & Hc & Hb).
           injection Hi as <-.
           rewrite (composited_canvas B img s Hctx) in Hc. simpl in Hc.
           injection Hc as <-. congruence.
        -- split; [| reflexivity]. intros _.
           eexists. eexists. split; [reflexivity |].
           split; [exact (composited_canvas B img s Hctx) | exact Et].
      * split; [discriminate |].
        intros (img' & c & Hi & Hc & _). injection Hi as <-.
        unfold composited in Hc.
        destruct (target_dimensions img s) as [tw th].
        unfold run, bind, composite, bind in Hc. rewrite Hctx in Hc.
        simpl in Hc. discriminate Hc.
    + split; [discriminate |].
      intros (img & c & Hi & _). discriminate Hi.
  - intros bitmap H. unfold decoded. rewrite H. reflexivity.
Qed.

Lemma processImage_failures_witness :
  processImage undecodable_browser sample_file DEFAULT_SETTINGS
  = Rejected ImageLoadError.
Proof.
  apply (proj1 (processImage_failures undecodable_browser sample_file
                  DEFAULT_SETTINGS)).
  reflexivity.
Defined.

Lemma canvas_dimension_exact (default z : Z) :
  (0 <= z <= 2147483647)%Z ->
  canvas_dimension default (JS.Fin (inject_Z z)) = JS.Fin (inject_Z z).
Proof.
  intros Hz. unfold canvas_dimension, ToUint32. simpl Qnum. simpl Qden.
  rewrite Z.quot_1_r, Z.mod_small by lia.
  destruct (Z.leb_spec z 2147483647); [reflexivity | lia].
Qed.

(** X10: whenever [renderToCanvas] resolves, the canvas it encoded has the
    size a canvas keeps of the width and height reported (their conversion
    to an unsigned long, or the default 300 or 150 above 2147483647), which
    is the size reported itself when that is an integer from 0 to
    2147483647; smoothing is enabled at quality high; there are exactly two
    drawing operations, a fill or a clear of the rectangle (0, 0, width,
    height) reported, then one [drawImage] of the source; the blob is the
    encoder's output for that canvas and the URL is the object URL of that
    blob. *)
Theorem resolved_render_shape (B : Browser) (img : ImageSource.t)
    (name : string) (s : ProcessingSettings.t) (p : ProcessedImage.t) :
  renderToCanvas B img name s = Resolved p ->
  exists c background x y w h,
    composited B img s = Resolved c
    /\ Canvas.width c = canvas_dimension 300 (ProcessedImage.width p)
    /\ Canvas.height c = canvas_dimension 150 (ProcessedImage.height p)
    /\ (forall z : Z, (0 <= z <= 2147483647)%Z ->
          ProcessedImage.width p = JS.Fin (inject_Z z) ->
          Canvas.width c = ProcessedImage.width p)
    /\ (forall z : Z, (0 <= z <= 2147483647)%Z ->
          ProcessedImage.height p = JS.Fin (inject_Z z) ->
          Canvas.height c = ProcessedImage.height p)
    /\ Canvas.imageSmoothingEnabled c = true
    /\ Canvas.imageSmoothingQuality c = "high"
    /\ Canvas.ops c = [background; DrawImage img x y w h]
    /\ (background = ClearRect 0 0 (ProcessedImage.width p) (ProcessedImage.height p)
        \/ background = FillRect (Canvas.fillStyle c) 0 0
                          (ProcessedImage.width p) (ProcessedImage.height p))
    /\ toBlob B c (mime (ProcessingSettings.format s)) (encoder_quality s)
       = Some (ProcessedImage.blob p)
    /\ ProcessedImage.url p = createObjectURL B (ProcessedImage.blob p).
Proof.
  rewrite renderToCanvas_outcome. simpl.
  destruct (getContext2d B) eqn:Hctx; [| discriminate].
  rewrite (composited_canvas B img s Hctx). simpl. unfold encoder_quality.
  match goal with |- context [toBlob ?b ?c ?m ?q] =>
    destruct (toBlob b c m q) as [blob |] eqn:Et end; [| discriminate].
  intros H. injection H as <-. simpl.
  do 6 eexists. split; [reflexivity |]. simpl.
  do 2 (split; [reflexivity |]).
  split; [intros z Hz E; rewrite E; apply canvas_dimension_exact; exact Hz |].
  split; [intros z Hz E; rewrite E; apply canvas_dimension_exact; exact Hz |].
  do 3 (split; [reflexivity |]).
  split; [| split; [exact Et | reflexivity]].
  destruct (negb (ProcessingSettings.backgroundColor s =? "transparent")%string);
    [right | left]; reflexivity.
Qed.

Lemma resolved_render_shape_witness :
  exists c background x y w h,
    composited sample_browser (image 4000 2000) DEFAULT_SETTINGS = Resolved c
    /\ Canvas.width c = JS.Fin 3840
    /\ Canvas.height c = JS.Fin 2160
    /\ (forall z : Z, (0 <= z <= 2147483647)%Z ->
          JS.Fin 3840 = JS.Fin (inject_Z z) -> Canvas.width c = JS.Fin 3840)
    /\ (forall z : Z, (0 <= z <= 2147483647)%Z ->
          JS.Fin 2160 = JS.Fin (inject_Z z) -> Canvas.height c = JS.Fin 2160)
    /\ Canvas.imageSmoothingEnabled c = true
    /\ Canvas.imageSmoothingQuality c = "high"
    /\ Canvas.ops c = [background; DrawImage (image 4000 2000) x y w h]
    /\ (background = ClearRect 0 0 (JS.Fin 3840) (JS.Fin 2160)
        \/ background = FillRect (Canvas.fillStyle c) 0 0 (JS.Fin 3840) (JS.Fin 2160))
    /\ toBlob sample_browser c (mime JPEG) (encoder_quality DEFAULT_SETTINGS)
       = Some []
    /\ "blob:0" = createObjectURL sample_browser [].
Proof.
  apply (resolved_render_shape sample_browser (image 4000 2000) "photo.png"
           DEFAULT_SETTINGS
           (ProcessedImage.mk [] "blob:0" "photo_3840x2160_4KUHD.jpg"
              (JS.Fin 3840) (JS.Fin 2160))).
  reflexivity.
Defined.

(** A validated custom width above 2147483647 is reported as typed, but the
    canvas falls back to its default width. *)
Example oversized_canvas :
  canvas_dimension 300 (JS.Fin (inject_Z 3000000000)) = JS.Fin (inject_Z 300)
  /\ canvas_dimension 300 (JS.Fin (7 # 2)) = JS.Fin (inject_Z 3)
  /\ canvas_dimension 150 JS.PosInf = JS.Fin (inject_Z 0).
Proof. repeat split. Qed.

(** ** More on the file name *)

Lemma append_assoc (a b c : string) : (a ++ b) ++ c = a ++ (b ++ c).
Proof. induction a as [| x a IH]; simpl; [reflexivity | rewrite IH; reflexivity]. Qed.

Lemma ext_has_no_dot (f : OutputFormat) : has_dot (ext f) = false.
Proof. destruct f; reflexivity. Qed.

(** A name that holds a full stop splits at its last one. *)
Lemma last_dot_split (s : string) :
  has_dot s = true ->
  exists b e, s = b ++ "." ++ e /\ has_dot e = false.
Proof.
  induction s as [| c r IH]; simpl; [discriminate |].
  intros H. destruct (has_dot r) eqn:Er.
  - destruct (IH eq_refl) as (b & e & E & He).
    exists (String c b), e. rewrite E. split; [reflexivity | exact He].
  - rewrite orb_false_r in H. apply Ascii.eqb_eq in H. subst c.
    exists EmptyString, r. split; [reflexivity | exact Er].
Qed.

(** X11: for every file name, the base name is the name itself when it
    holds no full stop, and otherwise the name is the base name followed by
    a full stop and a part without full stops: exactly one extension, the
    last, is removed, and never more than that. *)
Theorem baseName_removes_last_extension (name : string) :
  (has_dot name = false /\ baseName name = name)
  \/ (has_dot name = true
      /\ exists e, has_dot e = false /\ name = baseName name ++ "." ++ e).
Proof.
  destruct (has_dot name) eqn:E.
  - right. split; [reflexivity |].
    destruct (last_dot_split name E) as (b & e & Hn & He).
    exists e. split; [exact He |].
    rewrite Hn at 2. rewrite (baseName_strips b e He). exact Hn.
  - left. split; [reflexivity | apply baseName_no_dot; exact E].
Qed.

(** X12: the generated name ends in a full stop and the format's extension,
    and its own base name is everything before that: converting a converted
    file replaces the extension instead of stacking a second one, and keeps
    the earlier size-and-preset suffix in the stem. *)
Theorem generated_name_extension (B : Browser) (name : string)
    (s : ProcessingSettings.t) (tw th : JS.number) :
  let stem :=
    baseName name
      ++ "_" ++ JS.toString (numberToString B) tw
      ++ "x" ++ JS.toString (numberToString B) th
      ++ "_" ++ remove_spaces (preset_label (ProcessingSettings.preset s)) in
  generate_filename B name s tw th
    = stem ++ "." ++ ext (ProcessingSettings.format s)
  /\ baseName (generate_filename B name s tw th) = stem
  /\ forall s' tw' th',
       baseName (generate_filename B (generate_filename B name s tw th) s' tw' th')
       = stem ++ "_" ++ JS.toString (numberToString B) tw'
              ++ "x" ++ JS.toString (numberToString B) th'
              ++ "_" ++ remove_spaces (preset_label (ProcessingSettings.preset s')).
Proof.
  intros stem.
  assert (E : generate_filename B name s tw th
              = stem ++ "." ++ ext (ProcessingSettings.format s)).
  { unfold generate_filename, stem. rewrite !append_assoc. reflexivity. }
  assert (Eb : baseName (generate_filename B name s tw th) = stem).
  { rewrite E. apply baseName_strips, ext_has_no_dot. }
  split; [exact E |]. split; [exact Eb |].
  intros s' tw' th'.
  set (out := generate_filename B name s tw th) in *.
  assert (E' : generate_filename B out s' tw' th'
               = (baseName out
                    ++ "_" ++ JS.toString (numberToString B) tw'
                    ++ "x" ++ JS.toString (numberToString B) th'
                    ++ "_" ++ remove_spaces (preset_label (ProcessingSettings.preset s')))
                 ++ "." ++ ext (ProcessingSettings.format s')).
  { unfold generate_filename. rewrite !append_assoc. reflexivity. }
  rewrite E', (baseName_strips _ _ (ext_has_no_dot _)), Eb. reflexivity.
Qed.

(** A photo converted twice. *)
Example generated_twice :
  generate_filename sample_browser
    (generate_filename sample_browser "photo.png" DEFAULT_SETTINGS 3840 2160)
    (ProcessingSettings.mk HD_720 0 0 WEBP 1 COVER true "#000000") 1280 720
  = "photo_3840x2160_4KUHD_1280x720_720pHD.webp".
Proof. reflexivity. Qed.

(** ** The preset buttons *)





(** Switching from 1080p to Custom keeps 1920 x 1080 as the output size. *)
Example preset_then_custom :
  target_dimensions (image 4000 2000)
    (fold_left handlePresetChange [FHD_1080; CUSTOM] DEFAULT_SETTINGS)
  = (JS.Fin 1920, JS.Fin 1080).
Proof. reflexivity. Qed.

(** ** The width and height fields *)

Lemma parseInt_cases (value : string) :
  parseInt value = JS.NaN \/ exists k : Z, parseInt value = JS.Fin (inject_Z k).
Proof.
  unfold parseInt.
  destruct (match trim_start value with
            | String "-" r => ((-1)%Z, r)
            | String "+" r => (1%Z, r)
            | _ => (1%Z, trim_start value)
            end) as [sign rest].
  destruct (match rest with
            | String "0" (String "x" r) | String "0" (String "X" r) => (16%Z, r)
            | _ => (10%Z, rest)
            end) as [R digits].
  destruct (parse_digits R digits None) as [m |]; [right | left; reflexivity].
  exists (sign * m)%Z. reflexivity.
Qed.

(** X14: for a text of ASCII characters that [parseInt] reads as no number
    or as an integer of magnitude at most 2^53, the value the width or
    height field stores is a non-negative integer, never NaN and never
    negative: text that does not start with a number, and a negative number,
    are stored as 0, and an integer k read from the text as max(0, k).
    Under the Custom preset the field's error is shown exactly when the
    stored value is 0. *)
Theorem typed_dimension_is_natural (s : ProcessingSettings.t) (value : string) :
  ascii_text value = true ->
  reads_safe_integer value ->
  exists z : Z,
    (0 <= z <= 2 ^ 53)%Z
    /\ typed_dimension value = JS.Fin (inject_Z z)
    /\ (parseInt value = JS.NaN -> z = 0%Z)
    /\ (forall k : Z, parseInt value = JS.Fin (inject_Z k) -> z = Z.max 0 k)
    /\ (ProcessingSettings.preset s = CUSTOM ->
        (widthError (onChange_width s value) <> None <-> z = 0%Z)
        /\ (heightError (onChange_height s value) <> None <-> z = 0%Z)).
Proof.
  intros _ Hsafe.
  assert (Herr : forall z : Z, (0 <= z)%Z ->
            typed_dimension value = JS.Fin (inject_Z z) ->
            ProcessingSettings.preset s = CUSTOM ->
            (widthError (onChange_width s value) <> None <-> z = 0%Z)
            /\ (heightError (onChange_height s value) <> None <-> z = 0%Z)).
  { intros z Hz Ht Hp.
    unfold widthError, heightError, isCustom, onChange_width, onChange_height.
    simpl. rewrite Hp, Ht. simpl.
    destruct z as [| q | q]; simpl;
      [ split; split; (reflexivity || discriminate)
      | split; split; intros H; (discriminate H || (exfalso; apply H; reflexivity))
      | lia ]. }
  assert (Hpow : (0 < 2 ^ 53)%Z) by reflexivity.
  destruct (parseInt_cases value) as [E | [k E]].
  - exists 0%Z.
    assert (Ht : typed_dimension value = JS.Fin (inject_Z 0))
      by (unfold typed_dimension; rewrite E; reflexivity).
    split; [lia |]. split; [exact Ht |]. split; [reflexivity |].
    split; [intros k Hk; rewrite E in Hk; discriminate Hk |].
    apply Herr; [lia | exact Ht].
  - exists (Z.max 0 k).
    pose proof (Hsafe k E) as Hk.
    assert (Ht : typed_dimension value = JS.Fin (inject_Z (Z.max 0 k)))
      by (unfold typed_dimension; rewrite E; destruct k; reflexivity).
    split; [lia |]. split; [exact Ht |].
    split; [intros H; rewrite E in H; discriminate H |].
    split; [| apply Herr; [lia | exact Ht]].
    intros k' Hk'. rewrite E in Hk'. injection Hk' as <-. reflexivity.
Qed.

Lemma typed_dimension_is_natural_witness :
  exists z : Z,
    (0 <= z <= 2 ^ 53)%Z
    /\ typed_dimension "-17px" = JS.Fin (inject_Z z)
    /\ (widthError (onChange_width (custom_settings 100 100) "-17px") <> None
        <-> z = 0%Z).
Proof.
  destruct (typed_dimension_is_natural (custom_settings 100 100) "-17px")
    as (z & Hz & Ht & _ & _ & Herr).
  - reflexivity.
  - intros k Hk. vm_compute in Hk. injection Hk as <-. discriminate.
  - exists z. split; [exact Hz |]. split; [exact Ht |].
    apply Herr. reflexivity.
Defined.

Lemma parse_digits_step (c : ascii) (k : Z) (r : string) (acc : option Z) :
  radix_digit 10 c = Some k ->
  parse_digits 10 (String c r) acc
  = parse_digits 10 r (Some (match acc with Some a => a * 10 + k | None => k end)%Z).
Proof. intros H. simpl. rewrite H. reflexivity. Qed.

Ltac read_digit :=
  cbn [NilEmpty.string_of_uint];
  erewrite parse_digits_step by reflexivity;
  try simpl (Z.of_nat _).

(** Reading the decimal digits of [d] after a positive accumulator. *)
Lemma parse_digits_uint_pos (d : Decimal.uint) (acc : positive) :
  parse_digits 10 (NilEmpty.string_of_uint d) (Some (Z.pos acc))
  = Some (Z.pos (Pos.of_uint_acc d acc)).
Proof.
  revert acc. induction d as [| d IH | d IH | d IH | d IH | d IH | d IH
                              | d IH | d IH | d IH | d IH]; intros acc;
    [reflexivity
    | read_digit; cbn [Pos.of_uint_acc]; rewrite <- IH; f_equal; apply f_equal; lia ..].
Qed.

Lemma parse_digits_uint_zero (d : Decimal.uint) :
  parse_digits 10 (NilEmpty.string_of_uint d) (Some 0%Z)
  = Some (Z.of_N (Pos.of_uint d)).
Proof.
  induction d as [| d IH | d IH | d IH | d IH | d IH | d IH
                  | d IH | d IH | d IH | d IH];
    [reflexivity | read_digit; exact IH
    | read_digit; cbn [Pos.of_uint]; apply parse_digits_uint_pos ..].
Qed.

Lemma parse_digits_uint (d : Decimal.uint) :
  d <> Decimal.Nil ->
  parse_digits 10 (NilEmpty.string_of_uint d) None
  = Some (Z.of_N (Pos.of_uint d)).
Proof.
  intros Hd. destruct d;
    [contradiction
    | read_digit; cbn [Pos.of_uint]; apply parse_digits_uint_zero
    | read_digit; cbn [Pos.of_uint]; apply parse_digits_uint_pos ..].
Qed.

(** [parseInt] reads a printed natural number back. *)
Lemma parseInt_uint (d : Decimal.uint) :
  d <> Decimal.Nil ->
  parseInt (NilEmpty.string_of_uint d) = JS.Fin (inject_Z (Z.of_N (Pos.of_uint d))).
Proof.
  intros Hd.
  assert (E : parseInt (NilEmpty.string_of_uint d)
              = match parse_digits 10 (NilEmpty.string_of_uint d) None with
                | None => JS.NaN
                | Some m => JS.Fin (inject_Z (1 * m))
                end).
  { destruct d as [| d | d | d | d | d | d | d | d | d | d];
      [contradiction | destruct d | ..]; reflexivity. }
  rewrite E, (parse_digits_uint d Hd), Z.mul_1_l. reflexivity.
Qed.

(** X15: a width or height of the form, a natural number below 10^21, is
    displayed by the field as a text that the field's own [onChange] reads
    back as the same number: 0 stays 0 and every positive integer is
    stored unchanged. *)
Theorem displayed_dimension_round_trip (rest : Q -> string) (z : Z) :
  (0 <= z < 10 ^ 21)%Z ->
  typed_dimension (JS.toString rest (JS.Fin (inject_Z z))) = JS.Fin (inject_Z z).
Proof.
  intros [Hz Hlt].
  rewrite toString_integer by lia.
  destruct z as [| p | p]; [reflexivity | | lia].
  cbn [Z.to_int NilZero.string_of_int].
  pose proof (DecimalPos.Unsigned.to_uint_nonnil p) as Hn.
  assert (Es : NilZero.string_of_uint (Pos.to_uint p)
               = NilEmpty.string_of_uint (Pos.to_uint p)).
  { unfold NilZero.string_of_uint. destruct (Pos.to_uint p);
      [contradiction | reflexivity ..]. }
  unfold typed_dimension.
  rewrite Es, (parseInt_uint _ Hn), DecimalPos.Unsigned.of_to. reflexivity.
Qed.

Lemma displayed_dimension_round_trip_witness :
  typed_dimension (JS.toString (fun _ => "?") (JS.Fin (inject_Z 3840)))
  = JS.Fin (inject_Z 3840).
Proof.
  apply (displayed_dimension_round_trip (fun _ => "?") 3840).
  split; [discriminate | reflexivity].
Defined.

(** ** Choosing a file and converting it *)

(** X16: a file whose type does not start with [image/] is refused: one
    alert, and the state is left as it was, nothing is revoked.  An image
    file becomes the current file with a new preview URL, the settings are
    kept, the previous result is cleared, so that a new file is never shown
    with the result of the old one, and the effects are exactly the
    revocations of the previous preview URL (unless empty) and of the
    previous result's URL. *)
Theorem handleFile_behaviour (B : Browser) (st : App.t) (selected : Upload.t) :
  (String.prefix "image/" (Upload.type selected) = false ->
   handleFile B st selected = (st, [Alert "Please upload an image file."]))
  /\
  (String.prefix "image/" (Upload.type selected) = true ->
   let st' := fst (handleFile B st selected) in
   let effects := snd (handleFile B st selected) in
   App.file st' = Some selected
   /\ App.previewUrl st'
      = Some (createObjectURL B (File.blob (Upload.file selected)))
   /\ App.result st' = None
   /\ App.settings st' = App.settings st
   /\ forallb is_revoke effects = true
   /\ (forall r, App.result st = Some r ->
         In (RevokeObjectURL (ProcessedImage.url r)) effects)
   /\ (forall u, App.previewUrl st = Some u -> u <> "" ->
         In (RevokeObjectURL u) effects)
   /\ (forall u, In (RevokeObjectURL u) effects ->
         App.previewUrl st = Some u
         \/ exists r, App.result st = Some r /\ ProcessedImage.url r = u)).
Proof.
  unfold handleFile. split; intros H; rewrite H; simpl; [reflexivity |].
  destruct (App.result st) as [r |] eqn:Er; simpl.
  - repeat split; trivial.
    + unfold revoke_if_set. destruct (App.previewUrl st) as [u |]; simpl; trivial.
      destruct (u =? "")%string; reflexivity.
    + intros r' Hr. injection Hr as <-. apply in_or_app. right. left. reflexivity.
    + intros u Hu Hne. apply in_or_app. left. unfold revoke_if_set. rewrite Hu.
      apply String.eqb_neq in Hne. rewrite Hne. left. reflexivity.
    + intros u Hin. apply in_app_or in Hin. destruct Hin as [Hin | [Hin | []]].
      * left. unfold revoke_if_set in Hin.
        destruct (App.previewUrl st) as [v |]; [| contradiction].
        destruct (v =? "")%string; [contradiction |].
        destruct Hin as [Hin | []]. injection Hin as <-. reflexivity.
      * right. exists r. injection Hin as <-. split; reflexivity.
  - repeat split; trivial.
    + rewrite app_nil_r. unfold revoke_if_set.
      destruct (App.previewUrl st) as [u |]; simpl; trivial.
      destruct (u =? "")%string; reflexivity.
    + intros r Hr. discriminate Hr.
    + intros u Hu Hne. rewrite app_nil_r. unfold revoke_if_set. rewrite Hu.
      apply String.eqb_neq in Hne. rewrite Hne. left. reflexivity.
    + intros u Hin. rewrite app_nil_r in Hin. left. unfold revoke_if_set in Hin.
      destruct (App.previewUrl st) as [v |]; [| contradiction].
      destruct (v =? "")%string; [contradiction |].
      destruct Hin as [Hin | []]. injection Hin as <-. reflexivity.
Qed.

Lemma handleFile_behaviour_witness :
  handleFile sample_browser
    (App.mk None None DEFAULT_SETTINGS false None false)
    (Upload.mk sample_file "text/plain")
  = (App.mk None None DEFAULT_SETTINGS false None false,
     [Alert "Please upload an image file."]).
Proof.
  apply (proj1 (handleFile_behaviour sample_browser
                  (App.mk None None DEFAULT_SETTINGS false None false)
                  (Upload.mk sample_file "text/plain"))).
  reflexivity.
Defined.

(** X17: [handleProcess] never revokes an object URL and never changes the
    file, the preview or the settings.  Without a file or with invalid
    settings it does nothing at all.  Otherwise it ends with
    [isProcessing] false: when the pipeline resolves, its result replaces
    the one in the state and nothing is reported; when the pipeline rejects,
    the previous result stays in the state and the error is logged and
    alerted. *)
Theorem handleProcess_outcomes (B : Browser) (st : App.t) :
  let st' := fst (handleProcess_state B st) in
  let effects := snd (handleProcess_state B st) in
  existsb is_revoke effects = false
  /\ App.file st' = App.file st
  /\ App.previewUrl st' = App.previewUrl st
  /\ App.settings st' = App.settings st
  /\ (App.file st = None \/ isValid (App.settings st) = false ->
      st' = st /\ effects = [])
  /\ (forall f, App.file st = Some f -> isValid (App.settings st) = true ->
      App.isProcessing st' = false
      /\ (forall p, processImage B (Upload.file f) (App.settings st) = Resolved p ->
            App.result st' = Some p /\ effects = [])
      /\ (forall e, processImage B (Upload.file f) (App.settings st) = Rejected e ->
            App.result st' = App.result st
            /\ effects = [ConsoleError e;
                          Alert "Failed to process image. See console for details."])).
Proof.
  unfold handleProcess_state, handleProcess.
  destruct (App.file st) as [f |] eqn:Ef; simpl.
  - destruct (isValid (App.settings st)) eqn:Ev; simpl.
    + destruct (processImage B (Upload.file f) (App.settings st)) as [p | e] eqn:Ep;
        simpl; repeat split; trivial;
        first [ match goal with H : _ \/ _ |- _ => destruct H; discriminate end
              | congruence ].
    + repeat split; trivial; congruence.
  - repeat split; trivial; congruence.
Qed.

Lemma handleProcess_outcomes_witness :
  App.isProcessing (fst (handleProcess_state sample_browser
                           (sample_state DEFAULT_SETTINGS))) = false
  /\ App.result (fst (handleProcess_state sample_browser
                        (sample_state DEFAULT_SETTINGS)))
     = Some (ProcessedImage.mk [] "blob:0" "photo_3840x2160_4KUHD.jpg"
               (JS.Fin 3840) (JS.Fin 2160))
  /\ snd (handleProcess_state sample_browser (sample_state DEFAULT_SETTINGS)) = [].
Proof.
  destruct (handleProcess_outcomes sample_browser (sample_state DEFAULT_SETTINGS))
    as (_ & _ & _ & _ & _ & H).
  destruct (H (Upload.mk sample_file "image/png") eq_refl eq_refl)
    as (Hp & Hres & _).
  split; [exact Hp |].
  apply Hres. reflexivity.
Defined.

(** With invalid custom dimensions the handler leaves the state alone. *)
Example handleProcess_invalid :
  handleProcess_state sample_browser (sample_state (custom_settings 0 100))
  = (sample_state (custom_settings 0 100), []).
Proof. reflexivity. Qed.
